(** * streamlit_ml_app/app.py: model registry, prediction dispatch,
      batch processing and model comparison

    A shallow embedding of the logical core of [app.py]: [load_models],
    [make_prediction], [get_available_models], the body of the "Batch
    Processing" page from the point where [texts] has been extracted, and
    the body of the "Model Comparison" page.

    Conventions of the embedding:
    - the [models] dict is a [gmap string value]; [models.get(k)] is the
      lookup [m !! k], [models[k]] is [getitem] (raises [KeyError]);
    - fitted scikit-learn objects are records of their three methods, each
      of which may raise; the objects are opaque otherwise;
    - probabilities are rationals ([Q]) standing for Python floats;
    - texts are ASCII strings, so that [len] and [strip] act on characters;
    - Streamlit output ([st.error], [st.info], ...), [joblib.load] and every
      method call on a model object are recorded, in program order, in an
      event trace carried by the [Py] monad together with the raised
      exception, if any. Only subclasses of [Exception] are modelled. *)

From Stdlib Require Import ZArith QArith Qabs Qminmax Ascii String List Bool Lia.
From stdpp Require Import base option list strings gmap pretty.

Close Scope Q_scope.
Open Scope string_scope.
Open Scope list_scope.

(** ** Python values *)

(** Exceptions the code can meet (all are subclasses of [Exception]). *)
Inductive exn : Type :=
  | FileNotFoundError
  | KeyError (k : string)
  | IndexError
  | AttributeError
  | ValueError
  | RuntimeError (msg : string).

Definition is_FileNotFoundError (e : exn) : bool :=
  match e with FileNotFoundError => true | _ => false end.

(** TF-IDF features: one row per document. *)
Definition Matrix : Type := list (list Q).

(** What is passed to a model method: a list of raw texts or features. *)
Inductive arg : Type :=
  | Texts (l : list string)
  | Features (X : Matrix).

(** A deserialized model object, seen through the methods the app calls.
    [predict] yields one class index per document, [predict_proba] one
    probability row per document. *)
Record estimator : Type := Estimator {
  transform : arg → exn + Matrix;
  predict : arg → exn + list Z;
  predict_proba : arg → exn + list (list Q)
}.

(** Values stored in the [models] dict. *)
Inductive value : Type :=
  | VBool (b : bool)
  | VObj (o : estimator).

(** Truth value of [models.get(k)]: [None] and [False] are falsy; a model
    object, should one sit under a flag key, counts as true. *)
Definition truthy (v : option value) : bool :=
  match v with
  | None => false
  | Some (VBool b) => b
  | Some (VObj _) => true
  end.

(** ** Events and the effect monad *)

Inductive method : Type := Transform | Predict | PredictProba.

Inductive level : Type := error | info | success | warning | write.

(** Messages printed by the app, with their f-string arguments. *)
Inductive message : Type :=
  | NoCompleteSetup                        (* "No complete model setup found!" *)
  | ErrorLoadingModels (e : exn)           (* f"Error loading models: {e}" *)
  | ErrorMakingPrediction (e : exn)        (* f"Error making prediction: {e}" *)
  | ModelChoice (model_choice : string)    (* f"Model choice: {model_choice}" *)
  | AvailableModels (ks : gset string)     (* f"Available models: {[...]}" *)
  | NoTextFound                            (* "No text found in file" *)
  | Processing (n : nat)                   (* f"Processing {len(texts)} texts..." *)
  | Processed (n : nat)                    (* f"... Processed {len(results)} texts successfully!" *)
  | NoValidTexts                           (* "No valid texts could be processed" *)
  | ErrorProcessingFile (e : exn)          (* f"Error processing file: {e}" *)
  | AllAgree (label : string)              (* f"... All models agree: **{predictions[0]} Written**" *)
  | ModelsDisagree                         (* "... Models disagree on prediction" *)
  | ModelSays (model_name label : string)  (* f"- {model_name}: {result['Prediction']}" *)
  | FailedToGetPredictions.                (* "Failed to get predictions from models" *)

Inductive event : Type :=
  | ev_load (path : string)                       (* joblib.load(path) *)
  | ev_call (key : string) (f : method) (a : arg)  (* models[key].f(a) *)
  | ev_st (lv : level) (msg : message).            (* st.error(msg), ... *)

(** A computation: the events it produced, then an exception or a result. *)
Definition Py (A : Type) : Type := list event * (exn + A).

Definition events {A} (c : Py A) : list event := c.1.
Definition outcome {A} (c : Py A) : exn + A := c.2.

#[global] Instance Py_ret : MRet Py := λ A a, ([], inr a).

#[global] Instance Py_bind : MBind Py := λ A B f c,
  match c.2 with
  | inl e => (c.1, inl e)
  | inr a => (c.1 ++ (f a).1, (f a).2)
  end.

Definition raise {A} (e : exn) : Py A := ([], inl e).

Definition tell (ev : event) : Py unit := ([ev], inr tt).

(** [try: c except Exception as e: h e] *)
Definition try_except {A} (c : Py A) (h : exn → Py A) : Py A :=
  match c.2 with
  | inl e => (c.1 ++ (h e).1, (h e).2)
  | inr a => c
  end.

Definition lift {A} (r : exn + A) : Py A := ([], r).

(** ** Dict and sequence primitives *)

(** [d[k]] *)
Definition getitem (k : string) (d : gmap string value) : Py value :=
  match d !! k with
  | Some v => mret v
  | None => raise (KeyError k)
  end.

(** [d[k] = v] *)
Definition setitem (k : string) (v : value) (d : gmap string value)
  : gmap string value := <[k := v]> d.

(** [a[0]] on a sequence. *)
Definition item0 {A} (a : list A) : Py A :=
  match a with
  | x :: _ => mret x
  | [] => raise IndexError
  end.

(** [l[i]] for an integer index, negative indices counting from the end. *)
Definition py_index {A} (l : list A) (i : Z) : Py A :=
  let n := Z.of_nat (length l) in
  let j := if (i <? 0)%Z then (i + n)%Z else i in
  if (j <? 0)%Z then raise IndexError
  else match l !! Z.to_nat j with
       | Some x => mret x
       | None => raise IndexError
       end.

(** [max(l)]: the first element, replaced by each later one that is
    greater; [ValueError] on an empty sequence. *)
Definition py_max (l : list Q) : Py Q :=
  match l with
  | [] => raise ValueError
  | x :: xs => mret (fold_left (λ acc y, if Qle_bool y acc then acc else y) xs x)
  end.

(** Method calls on the object stored under [key]; a bool has none. *)
Definition call_transform (key : string) (v : value) (a : arg) : Py Matrix :=
  match v with
  | VBool _ => raise AttributeError
  | VObj o => tell (ev_call key Transform a);; lift (transform o a)
  end.

Definition call_predict (key : string) (v : value) (a : arg) : Py (list Z) :=
  match v with
  | VBool _ => raise AttributeError
  | VObj o => tell (ev_call key Predict a);; lift (predict o a)
  end.

Definition call_predict_proba (key : string) (v : value) (a : arg)
  : Py (list (list Q)) :=
  match v with
  | VBool _ => raise AttributeError
  | VObj o => tell (ev_call key PredictProba a);; lift (predict_proba o a)
  end.

(** ** MODEL LOADING SECTION *)

Section Loading.

(** The file system as [joblib.load] sees it: a path yields an object or
    raises. *)
Variable fs : string → exn + estimator.

Definition joblib_load (path : string) : Py estimator :=
  tell (ev_load path);; lift (fs path).

(** One [try: models[key] = joblib.load(path); models[flag] = True
    except FileNotFoundError: models[flag] = False] block. *)
Definition load_one (key flag path : string) (models : gmap string value)
  : Py (gmap string value) :=
  try_except
    (o ← joblib_load path;
     mret (setitem flag (VBool true) (setitem key (VObj o) models)))
    (λ e, if is_FileNotFoundError e
          then mret (setitem flag (VBool false) models)
          else raise e).

(** Truth value of a dict value, as tested by [and], [or] and [not]. *)
Definition value_truth (v : value) : bool := truthy (Some v).

(** The five load blocks, in source order. *)
Definition load_artifacts : Py (gmap string value) :=
  models ← load_one "pipeline" "pipeline_available"
                     "models/ai_detection_pipeline.pkl" ∅;
  models ← load_one "vectorizer" "vectorizer_available"
                     "models/tfidf_vectorizer.pkl" models;
  models ← load_one "svm" "svm_available" "models/svm_model.pkl" models;
  models ← load_one "decision_tree" "dt_available" "models/dt_model.pkl" models;
  load_one "adaboost" "ada_available" "models/ada_model.pkl" models.

(** "Check if at least one complete setup is available": the value of
    [pipeline_ready or individual_ready]. *)
Definition complete_setup (models : gmap string value) : Py bool :=
  pipeline_ready ← getitem "pipeline_available" models;
  individual_ready ←
    (v ← getitem "vectorizer_available" models;
     if value_truth v then
       s ← getitem "svm_available" models;
       if value_truth s then mret s
       else d ← getitem "dt_available" models;
            if value_truth d then mret d
            else getitem "ada_available" models
     else mret v);
  mret (value_truth pipeline_ready || value_truth individual_ready).

Definition load_models : Py (option (gmap string value)) :=
  try_except
    (models ← load_artifacts;
     ready ← complete_setup models;
     if negb ready
     then tell (ev_st error NoCompleteSetup);; mret None
     else mret (Some models))
    (λ e, tell (ev_st error (ErrorLoadingModels e));; mret None).

End Loading.

(** ** PREDICTION FUNCTION *)

Definition class_names : list string := ["Human"; "AI"].

(** [models[key].predict([text])[0]], [models[key].predict_proba([text])[0]] *)
Definition use_pipeline (text : string) (models : gmap string value)
  : Py (option Z * option (list Q)) :=
  p ← getitem "pipeline" models;
  prediction ← call_predict "pipeline" p (Texts [text]) ≫= item0;
  p ← getitem "pipeline" models;
  probabilities ← call_predict_proba "pipeline" p (Texts [text]) ≫= item0;
  mret (Some prediction, Some probabilities).

(** [X = models['vectorizer'].transform([text])], then [predict(X)[0]] and
    [predict_proba(X)[0]] of the classifier stored under [key]. *)
Definition use_individual (key text : string) (models : gmap string value)
  : Py (option Z * option (list Q)) :=
  v ← getitem "vectorizer" models;
  X ← call_transform "vectorizer" v (Texts [text]);
  c ← getitem key models;
  prediction ← call_predict key c (Features X) ≫= item0;
  c ← getitem key models;
  probabilities ← call_predict_proba key c (Features X) ≫= item0;
  mret (Some prediction, Some probabilities).

(** [isinstance(v, bool) and v] *)
Definition is_True (v : value) : bool :=
  match v with VBool b => b | VObj _ => false end.

(** The keys [k] of [models.items()] such that [isinstance(v, bool) and v];
    the source lists them in insertion order, here they form a set. *)
Definition true_flags (models : gmap string value) : gset string :=
  dom (filter (λ kv, Is_true (is_True kv.2)) models).

(** The branch taken on [model_choice] and the availability flags, which
    leaves [prediction] and [probabilities] at [None] when no branch
    applies. *)
Definition raw_prediction (text model_choice : string)
    (models : gmap string value) : Py (option Z * option (list Q)) :=
  if String.eqb model_choice "pipeline"
     && truthy (models !! "pipeline_available")
  then use_pipeline text models
  else if String.eqb model_choice "svm" then
    if truthy (models !! "pipeline_available")
    then use_pipeline text models
    else if truthy (models !! "vectorizer_available")
            && truthy (models !! "svm_available")
    then use_individual "svm" text models
    else mret (None, None)
  else if String.eqb model_choice "decision_tree" then
    if truthy (models !! "vectorizer_available")
       && truthy (models !! "dt_available")
    then use_individual "decision_tree" text models
    else mret (None, None)
  else if String.eqb model_choice "adaboost" then
    if truthy (models !! "vectorizer_available")
       && truthy (models !! "ada_available")
    then use_individual "adaboost" text models
    else mret (None, None)
  else mret (None, None).

(** [st.error] calls of the [except] clause of [make_prediction]. *)
Definition report_prediction_error (model_choice : string)
    (models : gmap string value) (e : exn)
  : Py (option string * option (list Q)) :=
  tell (ev_st error (ErrorMakingPrediction e));;
  tell (ev_st error (ModelChoice model_choice));;
  tell (ev_st error (AvailableModels (true_flags models)));;
  mret (None, None).

Definition make_prediction (text model_choice : string)
    (models : option (gmap string value))
  : Py (option string * option (list Q)) :=
  match models with
  | None => mret (None, None)
  | Some models =>
    try_except
      ('(prediction, probabilities) ← raw_prediction text model_choice models;
       match prediction, probabilities with
       | Some prediction, Some probabilities =>
           prediction_label ← py_index class_names prediction;
           mret (Some prediction_label, Some probabilities)
       | _, _ => mret (None, None)
       end)
      (report_prediction_error model_choice models)
  end.

(** The resolution table read off the branch conditions of
    [make_prediction]: which artifacts serve a model choice, if any. *)
Inductive path : Type :=
  | via_pipeline
  | via_individual (key : string).

Definition resolve (model_choice : string) (models : gmap string value)
  : option path :=
  let pipeline := truthy (models !! "pipeline_available") in
  let vectorizer := truthy (models !! "vectorizer_available") in
  if String.eqb model_choice "pipeline" && pipeline then Some via_pipeline
  else if String.eqb model_choice "svm" then
    if pipeline then Some via_pipeline
    else if vectorizer && truthy (models !! "svm_available")
    then Some (via_individual "svm") else None
  else if String.eqb model_choice "decision_tree" then
    if vectorizer && truthy (models !! "dt_available")
    then Some (via_individual "decision_tree") else None
  else if String.eqb model_choice "adaboost" then
    if vectorizer && truthy (models !! "ada_available")
    then Some (via_individual "adaboost") else None
  else None.

Definition run_path (p : path) (text : string) (models : gmap string value)
  : Py (option Z * option (list Q)) :=
  match p with
  | via_pipeline => use_pipeline text models
  | via_individual key => use_individual key text models
  end.

Definition get_available_models (models : option (gmap string value))
  : list (string * string) :=
  match models with
  | None => []
  | Some models =>
    let available := [] in
    let available :=
      if truthy (models !! "pipeline_available")
      then available ++ [("svm", "📈 SVM (Pipeline)")]
      else if truthy (models !! "vectorizer_available")
              && truthy (models !! "svm_available")
      then available ++ [("svm", "📈 SVM (Individual)")]
      else available in
    let available :=
      if truthy (models !! "vectorizer_available")
         && truthy (models !! "dt_available")
      then available ++ [("decision_tree", "🎯 Decision Tree")]
      else available in
    let available :=
      if truthy (models !! "vectorizer_available")
         && truthy (models !! "ada_available")
      then available ++ [("adaboost", "🎯 AdaBoost")]
      else available in
    available
  end.

(** ** String helpers used by the pages *)

(** Characters that [str.strip()] removes (ASCII [str.isspace]). *)
Definition is_space (c : ascii) : bool :=
  let n := nat_of_ascii c in
  ((9 <=? n)%nat && (n <=? 13)%nat) || ((28 <=? n)%nat && (n <=? 32)%nat).

(** Truth value of [text.strip()]: some character is not white space. *)
Fixpoint strip_nonempty (text : string) : bool :=
  match text with
  | EmptyString => false
  | String c rest => negb (is_space c) || strip_nonempty rest
  end.

(** Round a non-negative rational to the nearest integer, ties to even. *)
Definition round_half_even (q : Q) : Z :=
  let d := Z.pos (Qden q) in
  let k := (Qnum q / d)%Z in
  let r := (Qnum q mod d)%Z in
  match (2 * r ?= d)%Z with
  | Lt => k
  | Gt => (k + 1)%Z
  | Eq => if Z.even k then k else (k + 1)%Z
  end.

(** [f"{x:.1%}"]: [x] times 100 with one decimal and a percent sign. *)
Definition fmt_pct (x : Q) : string :=
  let n := round_half_even ((Qabs x * 1000)%Q) in
  (if Qle_bool 0 x then "" else "-")
  +:+ pretty (n / 10)%Z +:+ "." +:+ pretty (n mod 10)%Z +:+ "%".

(** [s.split(' ')] *)
Fixpoint split_space (s : string) : list string :=
  match s with
  | EmptyString => [""]
  | String c rest =>
      if Ascii.eqb c " " then "" :: split_space rest
      else match split_space rest with
           | w :: ws => String c w :: ws
           | [] => [String c ""]
           end
  end.

(** [' ' in s] *)
Fixpoint has_space (s : string) : bool :=
  match s with
  | EmptyString => false
  | String c rest => Ascii.eqb c " " || has_space rest
  end.

(** Truth value of a label-or-[None]. *)
Definition label_truthy (prediction : option string) : bool :=
  match prediction with
  | None => false
  | Some s => negb (String.eqb s "")
  end.

(** ** BATCH PROCESSING PAGE *)

Record row : Type := Row {
  Text : string;
  Full_Text : string;
  Prediction : string;
  Confidence : string;
  Human_Prob : string;
  AI_Prob : string
}.

(** [text[:100] + "..." if len(text) > 100 else text] *)
Definition preview (text : string) : string :=
  if (100 <? String.length text)%nat
  then String.substring 0 100 text +:+ "..."
  else text.

(** The dict literal appended to [results]. *)
Definition make_row (text prediction : string) (probabilities : list Q)
  : Py row :=
  confidence ← py_max probabilities;
  p_human ← py_index probabilities 0;
  p_ai ← py_index probabilities 1;
  mret {| Text := preview text; Full_Text := text; Prediction := prediction;
          Confidence := fmt_pct confidence; Human_Prob := fmt_pct p_human;
          AI_Prob := fmt_pct p_ai |}.

(** One iteration of [for i, text in enumerate(texts)]. *)
Definition batch_step (model_choice : string)
    (models : option (gmap string value)) (results : list row) (text : string)
  : Py (list row) :=
  if strip_nonempty text then
    '(prediction, probabilities) ← make_prediction text model_choice models;
    match probabilities with
    | Some probabilities =>
        if label_truthy prediction then
          r ← make_row text (default "" prediction) probabilities;
          mret (results ++ [r])
        else mret results
    | None => mret results
    end
  else mret results.

(** A [for] loop threading an accumulator; an exception ends it. *)
Fixpoint for_each {A B} (body : B → A → Py B) (l : list A) (acc : B) : Py B :=
  match l with
  | [] => mret acc
  | x :: l' => acc' ← body acc x; for_each body l' acc'
  end.

(** The page from [if not texts:] on, inside its [try]/[except]. The value
    is [results] when the loop ran to its end. The progress bar and the
    rendering of the summary, the table and the download button are left
    out. *)
Definition process_texts (texts : list string) (model_choice : string)
    (models : option (gmap string value)) : Py (option (list row)) :=
  try_except
    (match texts with
     | [] => tell (ev_st error NoTextFound);; mret None
     | _ =>
       tell (ev_st info (Processing (length texts)));;
       results ← for_each (batch_step model_choice models) texts [];
       match results with
       | _ :: _ => tell (ev_st success (Processed (length results)))
       | [] => tell (ev_st error NoValidTexts)
       end;;
       mret (Some results)
     end)
    (λ e, tell (ev_st error (ErrorProcessingFile e));; mret None).

(** ** MODEL COMPARISON PAGE *)

Record comparison : Type := Comparison {
  Model : string;
  cmp_Prediction : string;
  cmp_Confidence : string;
  Human_pct : string;
  AI_pct : string;
  Raw_Probs : list Q
}.

(** One iteration of [for model_key, model_name in available_models]. *)
Definition comparison_step (comparison_text : string)
    (models : option (gmap string value)) (comparison_results : list comparison)
    (model : string * string) : Py (list comparison) :=
  let '(model_key, model_name) := model in
  '(prediction, probabilities) ← make_prediction comparison_text model_key models;
  match probabilities with
  | Some probabilities =>
      if label_truthy prediction then
        confidence ← py_max probabilities;
        p_human ← py_index probabilities 0;
        p_ai ← py_index probabilities 1;
        mret (comparison_results ++
              [{| Model := model_name; cmp_Prediction := default "" prediction;
                  cmp_Confidence := fmt_pct confidence;
                  Human_pct := fmt_pct p_human; AI_pct := fmt_pct p_ai;
                  Raw_Probs := probabilities |}])
      else mret comparison_results
  | None => mret comparison_results
  end.

(** The line written for each result when the models disagree. *)
Definition disagree_line (result : comparison) : Py unit :=
  model_name ←
    (if has_space (Model result)
     then py_index (split_space (Model result)) 1
     else mret (Model result));
  tell (ev_st write (ModelSays model_name (cmp_Prediction result))).

(** The page from "Get predictions from all available models" to the
    agreement analysis. The value is [comparison_results]. The table and
    the probability charts are left out. *)
Definition compare_models (comparison_text : string)
    (available_models : list (string * string))
    (models : option (gmap string value)) : Py (list comparison) :=
  comparison_results ←
    for_each (comparison_step comparison_text models) available_models [];
  match comparison_results with
  | _ :: _ =>
      let predictions := cmp_Prediction <$> comparison_results in
      (if (size (list_to_set predictions : gset string) =? 1)%nat
       then p0 ← py_index predictions 0;
            tell (ev_st success (AllAgree p0))
       else tell (ev_st warning ModelsDisagree);;
            for_each (λ _ result, disagree_line result) comparison_results tt);;
      mret comparison_results
  | [] => tell (ev_st error FailedToGetPredictions);; mret comparison_results
  end.

(** ** Vocabulary of the statements *)

(** How one [joblib.load] ended. *)
Inductive load_status : Type :=
  | Loaded (o : estimator)
  | Missing
  | Fatal (e : exn).

Definition status (r : exn + estimator) : load_status :=
  match r with
  | inr o => Loaded o
  | inl e => if is_FileNotFoundError e then Missing else Fatal e
  end.

Definition loaded (r : exn + estimator) : bool :=
  match r with inr _ => true | inl _ => false end.

Definition loaded_obj (r : exn + estimator) : option value :=
  match r with inr o => Some (VObj o) | inl _ => None end.

(** The artifacts: dict key, availability flag, file. *)
Definition artifacts : list (string * string * string) :=
  [ ("pipeline", "pipeline_available", "models/ai_detection_pipeline.pkl");
    ("vectorizer", "vectorizer_available", "models/tfidf_vectorizer.pkl");
    ("svm", "svm_available", "models/svm_model.pkl");
    ("decision_tree", "dt_available", "models/dt_model.pkl");
    ("adaboost", "ada_available", "models/ada_model.pkl") ].

Definition artifact_paths : list string := snd <$> artifacts.

(** Readiness as the specification words it: the Pipeline, or the
    Vectorizer with at least one of SVM, DecisionTree, AdaBoost. *)
Definition is_ready_spec (pipeline vectorizer svm dt ada : bool) : bool :=
  pipeline || (vectorizer && (svm || dt || ada)).

(** Case analysis on one load, for a file system where a load either
    succeeds or finds no file. *)
Ltac load_cases fs path H :=
  let E := fresh "E" in
  let e := fresh "e" in
  destruct (fs path) as [e|?] eqn:E;
  [ pose proof (H _ _ E); subst e | ].


(** The first load, in the order of [paths], that raises something other
    than [FileNotFoundError], with its position. *)
Fixpoint first_fatal (fs : string → exn + estimator) (paths : list string)
  : option (nat * exn) :=
  match paths with
  | [] => None
  | path :: paths =>
      match status (fs path) with
      | Fatal e => Some (0%nat, e)
      | _ => prod_map S id <$> first_fatal fs paths
      end
  end.

(** What loading one artifact must leave in the dict. *)
Definition recorded (fs : string → exn + estimator)
    (models : gmap string value) (artifact : string * string * string) : Prop :=
  let '(key, flag, path) := artifact in
  models !! flag = Some (VBool (loaded (fs path))) ∧
  models !! key = loaded_obj (fs path).

Ltac rewrite_loads fs :=
  repeat match goal with E : fs _ = _ |- _ => rewrite !E; clear E end.

(** ** Sample artifacts for the scenarios *)

(** A vectorizer: one feature row per text; it is no classifier. *)
Definition stub_vectorizer : estimator :=
  {| transform := λ a,
       match a with
       | Texts l => inr ((λ _, [1%Q]) <$> l)
       | Features X => inr X
       end;
     predict := λ _, inl AttributeError;
     predict_proba := λ _, inl AttributeError |}.

(** A deterministic classifier that answers class [k] with probabilities
    [p_human] and [p_ai] for every document. *)
Definition stub_classifier (k : Z) (p_human p_ai : Q) : estimator :=
  {| transform := λ _, inl AttributeError;
     predict := λ a,
       match a with
       | Texts l => inr ((λ _, k) <$> l)
       | Features X => inr ((λ _, k) <$> X)
       end;
     predict_proba := λ a,
       match a with
       | Texts l => inr ((λ _, [p_human; p_ai]) <$> l)
       | Features X => inr ((λ _, [p_human; p_ai]) <$> X)
       end |}.

(** A classifier whose calls raise. *)
Definition failing_classifier (msg : string) : estimator :=
  {| transform := λ _, inl AttributeError;
     predict := λ _, inl (RuntimeError msg);
     predict_proba := λ _, inl (RuntimeError msg) |}.

(** A model directory holding only the vectorizer and the decision tree. *)
Definition fs_vectorizer_dt (path : string) : exn + estimator :=
  if String.eqb path "models/tfidf_vectorizer.pkl" then inr stub_vectorizer
  else if String.eqb path "models/dt_model.pkl"
  then inr (stub_classifier 1 (1 # 5) (4 # 5))
  else inl FileNotFoundError.

(** Registries as [load_models] builds them. *)
Definition registry_of (fs : string → exn + estimator)
  : option (gmap string value) :=
  match outcome (load_models fs) with
  | inr models => models
  | inl _ => None
  end.

(** Only the vectorizer and the decision tree are loaded. *)
Definition registry_vectorizer_dt : gmap string value :=
  default ∅ (registry_of fs_vectorizer_dt).

(** A pipeline that loads but whose calls raise; nothing else is there. *)
Definition fs_failing_pipeline (path : string) : exn + estimator :=
  if String.eqb path "models/ai_detection_pipeline.pkl"
  then inr (failing_classifier "boom")
  else inl FileNotFoundError.

Definition registry_failing_pipeline : gmap string value :=
  default ∅ (registry_of fs_failing_pipeline).

(** Everything is loaded: the pipeline answers Human, the SVM answers AI. *)
Definition fs_all (path : string) : exn + estimator :=
  if String.eqb path "models/ai_detection_pipeline.pkl"
  then inr (stub_classifier 0 (4 # 5) (1 # 5))
  else if String.eqb path "models/tfidf_vectorizer.pkl"
  then inr stub_vectorizer
  else inr (stub_classifier 1 (1 # 5) (4 # 5)).

Definition registry_all : gmap string value :=
  default ∅ (registry_of fs_all).

(** The pipeline file is missing; everything else is loaded. *)
Definition fs_individual (path : string) : exn + estimator :=
  if String.eqb path "models/ai_detection_pipeline.pkl"
  then inl FileNotFoundError
  else if String.eqb path "models/tfidf_vectorizer.pkl"
  then inr stub_vectorizer
  else inr (stub_classifier 1 (1 # 5) (4 # 5)).

Definition registry_individual : gmap string value :=
  default ∅ (registry_of fs_individual).

(** A vectorizer whose [transform] raises. *)
Definition failing_vectorizer (msg : string) : estimator :=
  {| transform := λ _, inl (RuntimeError msg);
     predict := λ _, inl AttributeError;
     predict_proba := λ _, inl AttributeError |}.

(** No pipeline, a vectorizer that raises, and the three classifiers. *)
Definition fs_broken_vectorizer (path : string) : exn + estimator :=
  if String.eqb path "models/ai_detection_pipeline.pkl"
  then inl FileNotFoundError
  else if String.eqb path "models/tfidf_vectorizer.pkl"
  then inr (failing_vectorizer "boom")
  else inr (stub_classifier 1 (1 # 5) (4 # 5)).

Definition registry_broken_vectorizer : gmap string value :=
  default ∅ (registry_of fs_broken_vectorizer).

(** A pipeline that raises on the text "bad" and answers Human otherwise. *)
Definition picky_pipeline : estimator :=
  {| transform := λ _, inl AttributeError;
     predict := λ a,
       match a with
       | Texts l => if bool_decide ("bad" ∈ l)
                    then inl (ValueError) else inr ((λ _, 0%Z) <$> l)
       | Features X => inl ValueError
       end;
     predict_proba := λ a,
       match a with
       | Texts l => inr ((λ _, [(9 # 10)%Q; (1 # 10)%Q]) <$> l)
       | Features X => inl ValueError
       end |}.

Definition fs_picky_pipeline (path : string) : exn + estimator :=
  if String.eqb path "models/ai_detection_pipeline.pkl"
  then inr picky_pipeline
  else inl FileNotFoundError.

Definition registry_picky_pipeline : gmap string value :=
  default ∅ (registry_of fs_picky_pipeline).

(** The SVM file is there but cannot be unpickled. *)
Definition fs_corrupt_svm (path : string) : exn + estimator :=
  if String.eqb path "models/svm_model.pkl"
  then inl (RuntimeError "invalid load key")
  else fs_all path.

(** ** Vocabulary of the prediction statements *)

(** What [make_prediction] hands to a page that tests
    [prediction and probabilities is not None]: the label and the
    probabilities, or nothing. *)
Definition predicted (text model_choice : string)
    (models : option (gmap string value)) : option (string * list Q) :=
  match outcome (make_prediction text model_choice models) with
  | inr (prediction, Some probabilities) =>
      if label_truthy prediction
      then Some (default "" prediction, probabilities) else None
  | _ => None
  end.

Definition is_call (ev : event) : bool :=
  match ev with ev_call _ _ _ => true | _ => false end.

(** The [st.error] messages of a failed prediction. *)
Definition prediction_errors (model_choice : string)
    (models : gmap string value) (e : exn) : list event :=
  [ ev_st error (ErrorMakingPrediction e);
    ev_st error (ModelChoice model_choice);
    ev_st error (AvailableModels (true_flags models)) ].

(** ** Vocabulary of the batch statements *)

(** The row the batch page appends for a text, if it appends one: the text
    is not blank, its prediction came back, and the dict literal could be
    built. *)
Definition row_for (model_choice : string)
    (models : option (gmap string value)) (text : string) : option row :=
  if strip_nonempty text then
    match predicted text model_choice models with
    | Some (label, probs) =>
        match outcome (make_row text label probs) with
        | inr r => Some r
        | inl _ => None
        end
    | None => None
    end
  else None.

(** A text that is not blank and whose prediction came back. *)
Definition served (model_choice : string)
    (models : option (gmap string value)) (text : string) : bool :=
  strip_nonempty text
  && bool_decide (is_Some (predicted text model_choice models)).

(** Every prediction that comes back for one of [texts] carries at least
    two probabilities. *)
Definition two_classes (model_choice : string)
    (models : option (gmap string value)) (texts : list string) : Prop :=
  ∀ text label probs,
    text ∈ texts →
    predicted text model_choice models = Some (label, probs) →
    (2 ≤ length probs)%nat.

(** ** Vocabulary of the comparison statements *)

(** The labels returned by the model choices that produced a result, in
    the order of [available_models]. *)
Definition labels_returned (comparison_text : string)
    (available_models : list (string * string))
    (models : option (gmap string value)) : list string :=
  omap (λ model, fst <$> predicted comparison_text model.1 models)
       available_models.

(** The page reports full agreement. *)
Definition reports_agreement {A} (c : Py A) : Prop :=
  ∃ label, ev_st success (AllAgree label) ∈ events c.

(** Every prediction that comes back for one of the model choices carries
    at least two probabilities. *)
Definition two_classes_each (comparison_text : string)
    (available_models : list (string * string))
    (models : option (gmap string value)) : Prop :=
  ∀ model label probs,
    model ∈ available_models →
    predicted comparison_text model.1 models = Some (label, probs) →
    (2 ≤ length probs)%nat.

(** Events that are not a report of agreement. *)
Definition not_agreement (ev : event) : Prop :=
  ∀ label, ev ≠ ev_st success (AllAgree label).

(** * The rest of the pages *)

(** ** More string operations *)

(** [s.lstrip()] *)
Fixpoint lstrip (s : string) : string :=
  match s with
  | EmptyString => EmptyString
  | String c rest => if is_space c then lstrip rest else s
  end.

(** [s.rstrip()] *)
Fixpoint rstrip (s : string) : string :=
  match s with
  | EmptyString => EmptyString
  | String c rest =>
      match rstrip rest with
      | EmptyString => if is_space c then EmptyString else String c EmptyString
      | r => String c r
      end
  end.

(** [s.strip()] *)
Definition strip (s : string) : string := rstrip (lstrip s).

(** [s.split(sep)] for a one-character separator. *)
Fixpoint split_on (sep : ascii) (s : string) : list string :=
  match s with
  | EmptyString => [""]
  | String c rest =>
      if Ascii.eqb c sep then "" :: split_on sep rest
      else match split_on sep rest with
           | w :: ws => String c w :: ws
           | [] => [String c ""]
           end
  end.

(** [sep.join(l)] *)
Fixpoint join (sep : string) (l : list string) : string :=
  match l with
  | [] => ""
  | [x] => x
  | x :: l' => x +:+ sep +:+ join sep l'
  end.

(** [c in s] *)
Fixpoint has_char (c : ascii) (s : string) : bool :=
  match s with
  | EmptyString => false
  | String c' rest => Ascii.eqb c' c || has_char c rest
  end.

Definition newline : ascii := ascii_of_nat 10.
Definition tab : ascii := ascii_of_nat 9.

(** ** Reading the uploaded file *)

(** A Word document as [python-docx] shows it: the text of each paragraph,
    and for each table its rows of cell texts. *)
Record document : Type := Document {
  paragraphs : list string;
  tables : list (list (list string))
}.

(** [extract_text], after [Document(file)] has been opened. *)
Definition extract_text (doc : document) : string :=
  let full_text := [] in
  let full_text := full_text ++ paragraphs doc in
  let full_text := full_text ++ concat (concat (tables doc)) in
  join (String newline "") full_text.

(** [[line.strip() for line in content.split('\n') if line.strip()]] *)
Definition line_texts (content : string) : list string :=
  strip <$> filter (λ line, Is_true (strip_nonempty line))
                   (split_on newline content).

(** The uploaded file, seen through the library calls the page makes on it;
    each of them may raise. *)
Record uploaded_file : Type := UploadedFile {
  file_suffix : string;                      (* pathlib.Path(uploaded_file.name).suffix *)
  read_utf8 : exn + string;              (* str(uploaded_file.read(), "utf-8") *)
  csv_first_column : exn + list string;  (* pd.read_csv(f).iloc[:, 0].astype(str).tolist() *)
  pdf_page_texts : exn + list string;    (* page.extract_text() of pdfplumber.open(f).pages *)
  docx_document : exn + document         (* Document(f) *)
}.

(** "Read file content": the branch on [file_extension]. *)
Definition read_texts (f : uploaded_file) : Py (list string) :=
  let file_extension := file_suffix f in
  if String.eqb file_extension ".txt" then
    content ← lift (read_utf8 f);
    mret (line_texts content)
  else if String.eqb file_extension ".csv" then
    lift (csv_first_column f)
  else if String.eqb file_extension ".pdf" then
    pages ← lift (pdf_page_texts f);
    let texts := fold_left (λ texts page, texts +:+ page) pages "" in
    mret (split_on tab texts)
  else
    doc ← lift (docx_document f);
    let texts := extract_text doc in
    mret (line_texts texts).

(** The page from [if not texts:] on, without the enclosing [try]. *)
Definition batch_body (texts : list string) (model_choice : string)
    (models : option (gmap string value)) : Py (option (list row)) :=
  match texts with
  | [] => tell (ev_st error NoTextFound);; mret None
  | _ =>
    tell (ev_st info (Processing (length texts)));;
    results ← for_each (batch_step model_choice models) texts [];
    match results with
    | _ :: _ => tell (ev_st success (Processed (length results)))
    | [] => tell (ev_st error NoValidTexts)
    end;;
    mret (Some results)
  end.

(** What the "Process File" button runs: reading and processing inside one
    [try], any exception being reported. *)
Definition process_file (f : uploaded_file) (model_choice : string)
    (models : option (gmap string value)) : Py (option (list row)) :=
  try_except
    (texts ← read_texts f;
     batch_body texts model_choice models)
    (λ e, tell (ev_st error (ErrorProcessingFile e));; mret None).

(** "Summary statistics": [positive_count] and [negative_count]. *)
Definition positive_count (results : list row) : nat :=
  length (filter (λ r, Prediction r = "AI") results).

Definition negative_count (results : list row) : nat :=
  length results - positive_count results.

(** A small Word document and files for the scenarios. *)
Definition sample_document : document :=
  {| paragraphs := ["First review. "; ""; "  Second review."];
     tables := [[["cell one"; " "]; ["cell two"]]] |}.

Definition no_file : exn :=
  RuntimeError "not this kind of file".

Definition sample_txt (content : string) : uploaded_file :=
  {| file_suffix := ".txt"; read_utf8 := inr content;
     csv_first_column := inl no_file; pdf_page_texts := inl no_file;
     docx_document := inl no_file |}.

Definition sample_pdf (pages : list string) : uploaded_file :=
  {| file_suffix := ".pdf"; read_utf8 := inl no_file;
     csv_first_column := inl no_file; pdf_page_texts := inr pages;
     docx_document := inl no_file |}.

Definition sample_docx (doc : document) : uploaded_file :=
  {| file_suffix := ".docx"; read_utf8 := inl no_file;
     csv_first_column := inl no_file; pdf_page_texts := inl no_file;
     docx_document := inr doc |}.

(** A text file with a blank line, and the pages of a PDF with one tab. *)
Definition sample_content : string :=
  "  Great product!" +:+ String newline (String tab (String newline
    ("bad" +:+ String newline ""))).

Definition sample_pages : list string :=
  ["one"; "two" +:+ String tab "three"].

(** ** More vocabulary for loading and prediction *)

(** A model directory that holds only the pipeline [o]. *)
Definition fs_only_pipeline (o : estimator) (path : string)
  : exn + estimator :=
  if String.eqb path "models/ai_detection_pipeline.pkl"
  then inr o else inl FileNotFoundError.

Definition registry_only_pipeline (o : estimator) : gmap string value :=
  default ∅ (registry_of (fs_only_pipeline o)).

(** A dict whose flags promise what it does not hold. *)
Definition registry_flags_only : gmap string value :=
  <["pipeline_available" := VBool true]>
    (<["vectorizer_available" := VBool true]>
       (<["dt_available" := VBool true]> ∅)).

(** ** The pages around the core *)

(** Truth value of [models] in [if models:]: a dict that is there and not
    empty. *)
Definition dict_truthy (models : option (gmap string value)) : bool :=
  match models with
  | None => false
  | Some m => negb (bool_decide (dom m = (∅ : gset string)))
  end.

(** [st.info], [st.warning], ... boxes that a page shows, as its value. *)
Definition box : Type := level * string.

Definition line2 (a b : string) : string := a +:+ String newline b.

(** Home page, "Model Status". *)
Definition model_status (models : option (gmap string value)) : list box :=
  match models with
  | Some m =>
    if dict_truthy models then
      [ (success, "✅ Models loaded successfully!");
        (if truthy (m !! "pipeline_available")
         then (info, line2 "**📈 SVM**" "✅ Pipeline Available")
         else if truthy (m !! "svm_available")
                 && truthy (m !! "vectorizer_available")
         then (info, line2 "**📈 SVM**" "✅ Individual Components")
         else (warning, line2 "**📈 Logistic Regression**" "❌ Not Available"));
        (if truthy (m !! "dt_available") && truthy (m !! "vectorizer_available")
         then (info, line2 "**🎯 Decision Tree**" "✅ Available")
         else (warning, line2 "**🎯 Decision Tree**" "❌ Not Available"));
        (if truthy (m !! "ada_available") && truthy (m !! "vectorizer_available")
         then (info, line2 "**🎯 AdaBoost**" "✅ Available")
         else (warning, line2 "**🎯 AdaBoost**" "❌ Not Available"));
        (if truthy (m !! "vectorizer_available")
         then (info, line2 "**🔤 TF-IDF Vectorizer**" "✅ Available")
         else (warning, line2 "**🔤 TF-IDF Vectorizer**" "❌ Not Available")) ]
    else [(error, "❌ Models not loaded. Please check model files.")]
  | None => [(error, "❌ Models not loaded. Please check model files.")]
  end.

(** Model Info page, "Model Files Status": [files_to_check] with
    [models.get(flag, False)], and the rows of the table. *)
Definition files_to_check (m : gmap string value)
  : list (string * string * bool) :=
  [ ("ai_detection_pipeline.pkl", "Complete SVM Pipeline",
     truthy (m !! "pipeline_available"));
    ("tfidf_vectorizer.pkl", "TF-IDF Vectorizer",
     truthy (m !! "vectorizer_available"));
    ("svm_model.pkl", "SVM Classifier", truthy (m !! "svm_available"));
    ("dt_model.pkl", "Decision Tree Classifier", truthy (m !! "dt_available"));
    ("ada_model.pkl", "AdaBoost Classifier", truthy (m !! "ada_available")) ].

Record file_row : Type := FileRow {
  File : string;
  Description : string;
  Status : string
}.

Definition file_status (m : gmap string value) : list file_row :=
  (λ '(filename, description, status),
     {| File := filename; Description := description;
        Status := if status : bool then "✅ Loaded" else "❌ Not Found" |})
  <$> files_to_check m.

(** [format_func] of the model select boxes:
    [next(model[1] for model in available_models if model[0] == x)];
    [None] stands for [StopIteration]. *)
Definition format_func (available_models : list (string * string))
    (x : string) : option string :=
  snd <$> head (filter (λ model, model.1 = x) available_models).

      (* st.success or st.error of the prediction, then the three metrics *)




(** Case analysis on the five availability flags of a dict. *)
Ltac flag_cases m :=
  destruct (truthy (m !! "pipeline_available"));
  destruct (truthy (m !! "vectorizer_available"));
  destruct (truthy (m !! "svm_available"));
  destruct (truthy (m !! "dt_available"));
  destruct (truthy (m !! "ada_available")).

(** A text of 120 characters. *)
Definition sample_long_text : string :=
  "0123456789012345678901234567890123456789"
  +:+ "0123456789012345678901234567890123456789"
  +:+ "0123456789012345678901234567890123456789".
(** * Properties *)

(** ** The effect monad *)

Section PyLemmas.
Context {A B : Type}.
Implicit Types (c : Py A) (f : A → Py B) (h : exn → Py A).

Lemma Py_eta c : (events c, outcome c) = c.
Proof. by destruct c. Qed.

Lemma events_bind c f :
  events (c ≫= f) =
  events c ++ match outcome c with inl _ => [] | inr a => events (f a) end.
Proof.
  destruct c as [l [e|a]]; unfold events, outcome, mbind, Py_bind; simpl;
    by rewrite ?app_nil_r.
Qed.

Lemma outcome_bind c f :
  outcome (c ≫= f) =
  match outcome c with inl e => inl e | inr a => outcome (f a) end.
Proof. by destruct c as [l [e|a]]. Qed.

Lemma events_try_except c h :
  events (try_except c h) =
  events c ++ match outcome c with inl e => events (h e) | inr _ => [] end.
Proof.
  destruct c as [l [e|a]]; unfold events, outcome, try_except; simpl;
    by rewrite ?app_nil_r.
Qed.

Lemma outcome_try_except c h :
  outcome (try_except c h) =
  match outcome c with inl e => outcome (h e) | inr a => inr a end.
Proof. by destruct c as [l [e|a]]. Qed.

Lemma bind_ok c f l a : c = (l, inr a) → c ≫= f = (l ++ events (f a), outcome (f a)).
Proof. by intros ->. Qed.

Lemma bind_raises c f l e : c = (l, inl e) → c ≫= f = (l, inl e).
Proof. by intros ->. Qed.

End PyLemmas.

Lemma mret_bind {A B} (a : A) (f : A → Py B) : mret a ≫= f = f a.
Proof. unfold mbind, Py_bind, mret, Py_ret; simpl. by destruct (f a). Qed.

Lemma tell_bind {B} (ev : event) (c : Py B) :
  (tell ev;; c) = (ev :: events c, outcome c).
Proof. reflexivity. Qed.

(** ** Loading *)

Lemma load_one_status fs key flag path m :
  load_one fs key flag path m =
  ([ev_load path],
   match status (fs path) with
   | Loaded o => inr (setitem flag (VBool true) (setitem key (VObj o) m))
   | Missing => inr (setitem flag (VBool false) m)
   | Fatal e => inl e
   end).
Proof.
  unfold load_one, joblib_load, status.
  destruct (fs path) as [[]|o]; reflexivity.
Qed.

(** The readiness check on any dict that holds the five flags. *)
Lemma complete_setup_flags (m : gmap string value) p v s d a :
  m !! "pipeline_available" = Some (VBool p) →
  m !! "vectorizer_available" = Some (VBool v) →
  m !! "svm_available" = Some (VBool s) →
  m !! "dt_available" = Some (VBool d) →
  m !! "ada_available" = Some (VBool a) →
  complete_setup m = ([], inr (is_ready_spec p v s d a)).
Proof.
  intros Hp Hv Hs Hd Ha. unfold complete_setup, getitem.
  rewrite Hp, Hv, Hs, Hd, Ha.
  destruct p, v, s, d, a; reflexivity.
Qed.

(** C1. For every combination of present and missing artifact files, the
    readiness check on the flags that loading records succeeds exactly when
    the Pipeline is loaded, or the Vectorizer and one of SVM, DecisionTree,
    AdaBoost are; [load_models] then returns the registry, and otherwise it
    reports the failure and returns [None]. *)
Theorem load_models_ready_iff (fs : string → exn + estimator) :
  (∀ path e, fs path = inl e → e = FileNotFoundError) →
  let ready :=
    is_ready_spec (loaded (fs "models/ai_detection_pipeline.pkl"))
                  (loaded (fs "models/tfidf_vectorizer.pkl"))
                  (loaded (fs "models/svm_model.pkl"))
                  (loaded (fs "models/dt_model.pkl"))
                  (loaded (fs "models/ada_model.pkl")) in
  ∃ models,
    load_artifacts fs = (ev_load <$> artifact_paths, inr models) ∧
    complete_setup models = ([], inr ready) ∧
    load_models fs =
      if ready then (ev_load <$> artifact_paths, inr (Some models))
      else ((ev_load <$> artifact_paths) ++ [ev_st error NoCompleteSetup],
            inr None).
Proof.
  intros H. unfold load_models, load_artifacts, load_one, joblib_load.
  load_cases fs "models/ai_detection_pipeline.pkl" H;
  load_cases fs "models/tfidf_vectorizer.pkl" H;
  load_cases fs "models/svm_model.pkl" H;
  load_cases fs "models/dt_model.pkl" H;
  load_cases fs "models/ada_model.pkl" H;
  (eexists; split; [reflexivity | split; reflexivity]).
Qed.

Lemma load_models_ready_iff_witness :
  (∀ path e, fs_vectorizer_dt path = inl e → e = FileNotFoundError) ∧
  ∃ models,
    load_artifacts fs_vectorizer_dt = (ev_load <$> artifact_paths, inr models) ∧
    complete_setup models = ([], inr true) ∧
    load_models fs_vectorizer_dt =
      (ev_load <$> artifact_paths, inr (Some models)).
Proof.
  assert (H : ∀ path e, fs_vectorizer_dt path = inl e → e = FileNotFoundError).
  { intros path e. unfold fs_vectorizer_dt.
    destruct (String.eqb path _); [discriminate|].
    destruct (String.eqb path _); [discriminate|]. congruence. }
  exact (conj H (load_models_ready_iff fs_vectorizer_dt H)).
Defined.

Lemma is_FileNotFoundError_true e : is_FileNotFoundError e = true → e = FileNotFoundError.
Proof. by destruct e. Qed.

Lemma first_fatal_loaded fs path paths o :
  fs path = inr o →
  first_fatal fs (path :: paths) = prod_map S id <$> first_fatal fs paths.
Proof. intros E. simpl. by rewrite E. Qed.

Lemma first_fatal_missing fs path paths :
  fs path = inl FileNotFoundError →
  first_fatal fs (path :: paths) = prod_map S id <$> first_fatal fs paths.
Proof. intros E. simpl. by rewrite E. Qed.

Lemma first_fatal_fatal fs path paths e :
  fs path = inl e → is_FileNotFoundError e = false →
  first_fatal fs (path :: paths) = Some (0%nat, e).
Proof. intros E F. simpl. rewrite E. simpl. by rewrite F. Qed.

Ltac fatal_cases fs path :=
  let e := fresh "e" in let E := fresh "E" in let F := fresh "F" in
  destruct (fs path) as [e|?] eqn:E;
  [ destruct (is_FileNotFoundError e) eqn:F;
    [ apply is_FileNotFoundError_true in F; subst e;
      rewrite (first_fatal_missing _ _ _ E)
    | rewrite (first_fatal_fatal _ _ _ _ E F); simpl;
      split; [exact F | rewrite ?F; reflexivity] ]
  | rewrite (first_fatal_loaded _ _ _ _ E) ].

(** C5. A missing file marks only its own artifact absent and the other
    loads still take place: every flag records whether its own file loaded.
    Any other exception raised by a load ends loading at once: the error is
    reported with its cause and [load_models] returns [None], never a
    partial registry. *)
Theorem load_models_fault_isolation (fs : string → exn + estimator) :
  match first_fatal fs artifact_paths with
  | None =>
      ∃ models ready,
        load_artifacts fs = (ev_load <$> artifact_paths, inr models) ∧
        Forall (recorded fs models) artifacts ∧
        complete_setup models = ([], inr ready) ∧
        load_models fs =
          if ready then (ev_load <$> artifact_paths, inr (Some models))
          else ((ev_load <$> artifact_paths) ++ [ev_st error NoCompleteSetup],
                inr None)
  | Some (n, e) =>
      is_FileNotFoundError e = false ∧
      load_models fs =
        ((ev_load <$> take (S n) artifact_paths)
           ++ [ev_st error (ErrorLoadingModels e)],
         inr None)
  end.
Proof.
  unfold load_models, load_artifacts, load_one, joblib_load.
  unfold artifact_paths, artifacts. simpl fmap.
  fatal_cases fs "models/ai_detection_pipeline.pkl".
  all: fatal_cases fs "models/tfidf_vectorizer.pkl".
  all: fatal_cases fs "models/svm_model.pkl".
  all: fatal_cases fs "models/dt_model.pkl".
  all: fatal_cases fs "models/ada_model.pkl".
  all: simpl first_fatal; simpl fmap.
  all: (do 2 eexists; split; [reflexivity|]; split;
   [ repeat constructor; simpl; rewrite_loads fs; reflexivity
   | split; reflexivity ]).
Qed.

(** A corrupt SVM file: the loads stop at the third file and nothing is
    returned, although the pipeline and the vectorizer had loaded. *)
Example load_models_corrupt_svm :
  load_models fs_corrupt_svm =
    ([ ev_load "models/ai_detection_pipeline.pkl";
       ev_load "models/tfidf_vectorizer.pkl";
       ev_load "models/svm_model.pkl";
       ev_st error (ErrorLoadingModels (RuntimeError "invalid load key")) ],
     inr None).
Proof. reflexivity. Qed.

(** ** Prediction *)

Lemma raw_prediction_resolve text model_choice models :
  raw_prediction text model_choice models =
  match resolve model_choice models with
  | Some p => run_path p text models
  | None => mret (None, None)
  end.
Proof.
  unfold raw_prediction, resolve, run_path.
  repeat (case_match; try reflexivity).
Qed.

Lemma py_index_class_names k :
  py_index class_names k =
  if decide (k = 0 ∨ k = -2)%Z then mret "Human"
  else if decide (k = 1 ∨ k = -1)%Z then mret "AI"
  else raise IndexError.
Proof.
  assert (k = -2 ∨ k = -1 ∨ k = 0 ∨ k = 1 ∨ k < -2 ∨ 1 < k)%Z
    as [->|[->|[->|[->|[H|H]]]]] by lia; try reflexivity.
  - repeat case_decide; try lia. unfold py_index. cbv zeta. simpl length.
    destruct (Z.ltb_spec k 0); [|lia].
    destruct (Z.ltb_spec (k + Z.of_nat 2) 0); [done|lia].
  - repeat case_decide; try lia. unfold py_index. cbv zeta. simpl length.
    destruct (Z.ltb_spec k 0); [lia|].
    destruct (Z.ltb_spec k 0); [lia|].
    rewrite lookup_ge_None_2; [done|]. simpl. lia.
Qed.

Lemma report_prediction_error_eq model_choice models e :
  report_prediction_error model_choice models e =
  (prediction_errors model_choice models e, inr (None, None)).
Proof. reflexivity. Qed.

(** A served path yields a class index and a probability row, or raises. *)
Lemma run_path_outcome p text models :
  (∃ e, outcome (run_path p text models) = inl e) ∨
  (∃ k probs, outcome (run_path p text models) = inr (Some k, Some probs)).
Proof.
  destruct p as [|key]; simpl; unfold use_pipeline, use_individual.
  - repeat (rewrite outcome_bind; case_match; eauto).
  - repeat (rewrite outcome_bind; case_match; eauto).
Qed.

(** What [make_prediction] returns, from what the branch taken returned. *)
Lemma make_prediction_eq text model_choice models :
  make_prediction text model_choice (Some models) =
  match outcome (raw_prediction text model_choice models) with
  | inl e =>
      (events (raw_prediction text model_choice models)
         ++ prediction_errors model_choice models e, inr (None, None))
  | inr (Some k, Some probs) =>
      if decide (k = 0 ∨ k = -2)%Z
      then (events (raw_prediction text model_choice models),
            inr (Some "Human", Some probs))
      else if decide (k = 1 ∨ k = -1)%Z
      then (events (raw_prediction text model_choice models),
            inr (Some "AI", Some probs))
      else (events (raw_prediction text model_choice models)
              ++ prediction_errors model_choice models IndexError,
            inr (None, None))
  | inr _ =>
      (events (raw_prediction text model_choice models), inr (None, None))
  end.
Proof.
  unfold make_prediction.
  destruct (raw_prediction text model_choice models) as [l [e|[[k|] [probs|]]]];
    unfold try_except, mbind, Py_bind, events, outcome; simpl;
    rewrite ?app_nil_r; try done.
  fold (events (py_index class_names k)) (outcome (py_index class_names k)).
  rewrite py_index_class_names.
  repeat case_decide; simpl; by rewrite ?app_nil_r.
Qed.

Lemma py_max_pair p q : (if Qle_bool q p then p else q) = Qmax p q.
Proof.
  unfold Qmax, GenericMinMax.gmax.
  destruct (Qle_bool q p) eqn:E.
  - apply Qle_bool_iff in E.
    destruct (p ?= q)%Q eqn:C; try done.
    apply Qlt_alt in C. by apply Qle_not_lt in E.
  - destruct (p ?= q)%Q eqn:C; try done.
    + apply Qeq_alt in C. assert (Qle_bool q p = true); [|congruence].
      apply Qle_bool_iff. rewrite C. apply Qle_refl.
    + apply Qgt_alt in C. assert (Qle_bool q p = true); [|congruence].
      apply Qle_bool_iff. by apply Qlt_le_weak.
Qed.

(** C10. [make_prediction] returns a label together with probabilities or
    neither of them; without a registry it returns the empty result and
    does nothing else; a returned label is Human or AI. *)
Theorem make_prediction_label_and_probabilities text model_choice models :
  make_prediction text model_choice None = ([], inr (None, None)) ∧
  (outcome (make_prediction text model_choice models) = inr (None, None) ∨
   ∃ label probs,
     outcome (make_prediction text model_choice models)
       = inr (Some label, Some probs) ∧
     (label = "Human" ∨ label = "AI")).
Proof.
  split; [done|]. destruct models as [models|]; [|by left].
  rewrite make_prediction_eq.
  repeat case_match; simpl; eauto 10.
Qed.

(** C7. When the selected model answers class index [k] with a
    probability row, index 0 becomes the label Human and index 1 the label
    AI; the row is returned as it is, its first entry being shown as the
    Human probability and its second as the AI probability; the confidence
    is the larger of the two. *)
Theorem prediction_normalization text model_choice models k probs :
  outcome (raw_prediction text model_choice models) = inr (Some k, Some probs) →
  (k = 0%Z → outcome (make_prediction text model_choice (Some models))
            = inr (Some "Human", Some probs)) ∧
  (k = 1%Z → outcome (make_prediction text model_choice (Some models))
            = inr (Some "AI", Some probs)) ∧
  ∀ label p_human p_ai, probs = [p_human; p_ai] →
    py_max probs = mret (Qmax p_human p_ai) ∧
    make_row text label probs =
      mret {| Text := preview text; Full_Text := text; Prediction := label;
              Confidence := fmt_pct (Qmax p_human p_ai);
              Human_Prob := fmt_pct p_human; AI_Prob := fmt_pct p_ai |}.
Proof.
  intros Hraw. rewrite make_prediction_eq, Hraw.
  split; [by intros -> | split; [by intros -> |]].
  intros label p_human p_ai ->. unfold make_row, py_max. simpl fold_left.
  by rewrite py_max_pair.
Qed.

Lemma prediction_normalization_witness :
  outcome (raw_prediction "Great product!" "svm" registry_all)
    = inr (Some 0%Z, Some [(4 # 5)%Q; (1 # 5)%Q]) ∧
  outcome (make_prediction "Great product!" "svm" (Some registry_all))
    = inr (Some "Human", Some [(4 # 5)%Q; (1 # 5)%Q]) ∧
  make_row "Great product!" "Human" [(4 # 5)%Q; (1 # 5)%Q] =
    mret {| Text := "Great product!"; Full_Text := "Great product!";
            Prediction := "Human"; Confidence := "80.0%";
            Human_Prob := "80.0%"; AI_Prob := "20.0%" |}.
Proof.
  pose proof (prediction_normalization "Great product!" "svm" registry_all
                0%Z [(4 # 5)%Q; (1 # 5)%Q] eq_refl) as (H0 & _ & Hrow).
  split; [reflexivity|]. split; [exact (H0 eq_refl)|].
  exact (proj2 (Hrow "Human" _ _ eq_refl)).
Defined.

(** Every call made on the pipeline path is a call of the pipeline on the
    raw text. *)
Lemma use_pipeline_calls text models ev :
  ev ∈ events (use_pipeline text models) →
  ev = ev_call "pipeline" Predict (Texts [text]) ∨
  ev = ev_call "pipeline" PredictProba (Texts [text]).
Proof.
  unfold use_pipeline, getitem, call_predict, call_predict_proba.
  destruct (models !! "pipeline") as [[b|o]|]; simpl;
    try (intros H; by apply elem_of_nil in H).
  unfold mbind, Py_bind, events, lift, item0; simpl.
  destruct (predict o (Texts [text])) as [e|[|k ks]]; simpl;
    destruct (predict_proba o (Texts [text])) as [e'|[|p ps]]; simpl;
    intros Hin; set_unfold in Hin; intuition.
Qed.

Lemma make_prediction_events text model_choice models ev :
  ev ∈ events (make_prediction text model_choice (Some models)) →
  is_call ev = true →
  ev ∈ events (raw_prediction text model_choice models).
Proof.
  rewrite make_prediction_eq. intros Hin Hc.
  assert (∀ e, ev ∈ prediction_errors model_choice models e → False) as Herr.
  { unfold prediction_errors. intros e He. set_unfold in He.
    intuition (subst; discriminate). }
  repeat case_match; simpl in Hin; try done;
    apply elem_of_app in Hin as [Hin|Hin]; try done; by apply Herr in Hin.
Qed.

(** C2. When the Pipeline is loaded, an SVM request runs the pipeline branch:
    every model call it makes is [predict] or [predict_proba] of the
    pipeline on the raw text, whatever else is loaded. A call on any other
    artifact for an SVM request happens only when the Pipeline is absent
    and the Vectorizer and the SVM are both loaded. *)
Theorem svm_request_prefers_pipeline text models :
  (truthy (models !! "pipeline_available") = true →
   raw_prediction text "svm" models = use_pipeline text models ∧
   (∀ ev, ev ∈ events (make_prediction text "svm" (Some models)) →
          is_call ev = true →
          ev = ev_call "pipeline" Predict (Texts [text]) ∨
          ev = ev_call "pipeline" PredictProba (Texts [text])) ∧
   (∀ o k ks p ps,
      models !! "pipeline" = Some (VObj o) →
      predict o (Texts [text]) = inr (k :: ks) →
      predict_proba o (Texts [text]) = inr (p :: ps) →
      raw_prediction text "svm" models =
        ([ev_call "pipeline" Predict (Texts [text]);
          ev_call "pipeline" PredictProba (Texts [text])],
         inr (Some k, Some p)))) ∧
  (∀ key f a,
     ev_call key f a ∈ events (make_prediction text "svm" (Some models)) →
     key ≠ "pipeline" →
     truthy (models !! "pipeline_available") = false ∧
     truthy (models !! "vectorizer_available") = true ∧
     truthy (models !! "svm_available") = true).
Proof.
  split.
  - intros Hp.
    assert (Hraw : raw_prediction text "svm" models = use_pipeline text models).
    { unfold raw_prediction. simpl. by rewrite Hp. }
    split; [done|]. split.
    + intros ev Hin Hc. apply make_prediction_events in Hin; [|done].
      rewrite Hraw in Hin. by apply (use_pipeline_calls text models).
    + intros o k ks p ps Ho Hk Hpr. rewrite Hraw.
      unfold use_pipeline, getitem. rewrite Ho. simpl.
      unfold mbind, Py_bind, lift. simpl. rewrite Hk. simpl. by rewrite Hpr.
  - intros key f a Hin Hkey. apply make_prediction_events in Hin; [|done].
    unfold raw_prediction in Hin. simpl in Hin.
    destruct (truthy (models !! "pipeline_available")).
    + apply (use_pipeline_calls text models) in Hin as [[= -> _ _]|[= -> _ _]];
        done.
    + destruct (truthy (models !! "vectorizer_available"));
        destruct (truthy (models !! "svm_available")); simpl in Hin;
        try done; by apply elem_of_nil in Hin.
Qed.

Lemma svm_request_prefers_pipeline_witness :
  (truthy (registry_all !! "pipeline_available") = true ∧
   make_prediction "Great product!" "svm" (Some registry_all) =
     ([ev_call "pipeline" Predict (Texts ["Great product!"]);
       ev_call "pipeline" PredictProba (Texts ["Great product!"])],
      inr (Some "Human", Some [(4 # 5)%Q; (1 # 5)%Q]))) ∧
  (ev_call "svm" Predict (Features [[1%Q]])
     ∈ events (make_prediction "Great product!" "svm" (Some registry_individual)) ∧
   truthy (registry_individual !! "pipeline_available") = false ∧
   truthy (registry_individual !! "vectorizer_available") = true ∧
   truthy (registry_individual !! "svm_available") = true).
Proof.
  split.
  - split; [reflexivity|].
    pose proof (proj1 (svm_request_prefers_pipeline "Great product!" registry_all)
                  eq_refl) as [Hraw _].
    rewrite make_prediction_eq, Hraw. reflexivity.
  - assert (Hin : ev_call "svm" Predict (Features [[1%Q]])
             ∈ events (make_prediction "Great product!" "svm"
                         (Some registry_individual))).
    { vm_compute. apply list_elem_of_In. simpl. tauto. }
    split; [exact Hin|].
    apply (proj2 (svm_request_prefers_pipeline "Great product!" registry_individual)
             "svm" Predict (Features [[1%Q]]) Hin).
    discriminate.
Defined.

(** C3, as the code has it. [make_prediction] returns the same empty result
    [(None, None)] when no path serves the model choice and when the model
    call raises. In the first case nothing is reported; in the second the
    cause is reported through [st.error], after the calls already made. *)
Theorem make_prediction_failures_empty_result text model_choice models :
  (resolve model_choice models = None →
   make_prediction text model_choice (Some models) = ([], inr (None, None))) ∧
  (∀ p e,
     resolve model_choice models = Some p →
     outcome (run_path p text models) = inl e →
     make_prediction text model_choice (Some models) =
       (events (run_path p text models)
          ++ prediction_errors model_choice models e,
        inr (None, None))).
Proof.
  rewrite make_prediction_eq, raw_prediction_resolve. split.
  - by intros ->.
  - intros p e -> He. by rewrite He.
Qed.

Lemma make_prediction_failures_empty_result_witness :
  (resolve "svm" registry_vectorizer_dt = None ∧
   make_prediction "Great product!" "svm" (Some registry_vectorizer_dt)
     = ([], inr (None, None))) ∧
  (resolve "svm" registry_failing_pipeline = Some via_pipeline ∧
   outcome (run_path via_pipeline "Great product!" registry_failing_pipeline)
     = inl (RuntimeError "boom") ∧
   make_prediction "Great product!" "svm" (Some registry_failing_pipeline) =
     (events (run_path via_pipeline "Great product!" registry_failing_pipeline)
        ++ prediction_errors "svm" registry_failing_pipeline (RuntimeError "boom"),
      inr (None, None))).
Proof.
  split.
  - split; [reflexivity|].
    exact (proj1 (make_prediction_failures_empty_result
                    "Great product!" "svm" registry_vectorizer_dt) eq_refl).
  - split; [reflexivity|]. split; [reflexivity|].
    exact (proj2 (make_prediction_failures_empty_result
                    "Great product!" "svm" registry_failing_pipeline)
             via_pipeline (RuntimeError "boom") eq_refl eq_refl).
Defined.

(** C3 as stated fails: an unavailable choice and a raising model give the
    same returned value. *)
Lemma make_prediction_failures_same_result :
  resolve "svm" registry_vectorizer_dt = None ∧
  resolve "svm" registry_failing_pipeline = Some via_pipeline ∧
  outcome (run_path via_pipeline "Great product!" registry_failing_pipeline)
    = inl (RuntimeError "boom") ∧
  outcome (make_prediction "Great product!" "svm" (Some registry_vectorizer_dt))
  = outcome (make_prediction "Great product!" "svm"
               (Some registry_failing_pipeline)).
Proof. repeat split; reflexivity. Qed.

(** C4. The choices offered are exactly those the resolution table serves:
    SVM with the Pipeline or with Vectorizer and SVM, DecisionTree with
    Vectorizer and DecisionTree, AdaBoost with Vectorizer and AdaBoost,
    each once and in that order; with only Vectorizer and DecisionTree the
    list is the single choice DecisionTree. *)
Theorem get_available_models_resolution models :
  let pipeline := truthy (models !! "pipeline_available") in
  let vectorizer := truthy (models !! "vectorizer_available") in
  let svm := truthy (models !! "svm_available") in
  let dt := truthy (models !! "dt_available") in
  let ada := truthy (models !! "ada_available") in
  (get_available_models (Some models)).*1 =
    (if pipeline || vectorizer && svm then ["svm"] else [])
    ++ (if vectorizer && dt then ["decision_tree"] else [])
    ++ (if vectorizer && ada then ["adaboost"] else []) ∧
  (get_available_models (Some models)).*1 =
    filter (λ choice, is_Some (resolve choice models))
           ["svm"; "decision_tree"; "adaboost"] ∧
  NoDup (get_available_models (Some models)).*1 ∧
  (pipeline = false → vectorizer = true → svm = false → dt = true →
   ada = false →
   (get_available_models (Some models)).*1 = ["decision_tree"]).
Proof.
  unfold get_available_models, resolve.
  destruct (truthy (models !! "pipeline_available"));
    destruct (truthy (models !! "vectorizer_available"));
    destruct (truthy (models !! "svm_available"));
    destruct (truthy (models !! "dt_available"));
    destruct (truthy (models !! "ada_available")); simpl;
    (split; [reflexivity|]; split; [reflexivity|]; split;
     [ apply (bool_decide_unpack _); by vm_compute | try done ]).
Qed.

Lemma get_available_models_resolution_witness :
  truthy (registry_vectorizer_dt !! "pipeline_available") = false ∧
  truthy (registry_vectorizer_dt !! "vectorizer_available") = true ∧
  truthy (registry_vectorizer_dt !! "svm_available") = false ∧
  truthy (registry_vectorizer_dt !! "dt_available") = true ∧
  truthy (registry_vectorizer_dt !! "ada_available") = false ∧
  (get_available_models (Some registry_vectorizer_dt)).*1 = ["decision_tree"].
Proof.
  repeat (split; [reflexivity|]).
  exact (proj2 (proj2 (proj2
           (get_available_models_resolution registry_vectorizer_dt)))
           eq_refl eq_refl eq_refl eq_refl eq_refl).
Defined.

(** C8. With no texts, the page reports "No text found in file" and stops:
    that message is its whole trace, so no model is called. *)
Theorem process_texts_empty model_choice models :
  process_texts [] model_choice models = ([ev_st error NoTextFound], inr None) ∧
  filter (λ ev, Is_true (is_call ev))
         (events (process_texts [] model_choice models)) = [].
Proof. split; reflexivity. Qed.

(** ** Batch processing *)

Lemma make_prediction_total text model_choice models :
  ∃ r, outcome (make_prediction text model_choice models) = inr r.
Proof.
  destruct models as [models|]; [|by eexists].
  rewrite make_prediction_eq. repeat case_match; by eexists.
Qed.

Lemma make_row_two text label p0 p1 rest :
  ∃ r, make_row text label (p0 :: p1 :: rest) = ([], inr r) ∧ Full_Text r = text
       ∧ Prediction r = label.
Proof. eexists. split; [reflexivity|]. done. Qed.

Lemma batch_step_eq model_choice models results text :
  outcome (batch_step model_choice models results text) =
  if strip_nonempty text then
    match predicted text model_choice models with
    | Some (label, probs) =>
        match outcome (make_row text label probs) with
        | inr r => inr (results ++ [r])
        | inl e => inl e
        end
    | None => inr results
    end
  else inr results.
Proof.
  unfold batch_step, predicted.
  destruct (strip_nonempty text); [|done].
  rewrite outcome_bind.
  destruct (make_prediction_total text model_choice models) as [[pred probs] ->].
  destruct probs as [probs|]; [|done].
  destruct (label_truthy pred); [|done].
  rewrite outcome_bind. by destruct (outcome (make_row _ _ _)).
Qed.

Lemma for_each_batch model_choice models texts results :
  two_classes model_choice models texts →
  outcome (for_each (batch_step model_choice models) texts results) =
  inr (results ++ omap (row_for model_choice models) texts).
Proof.
  revert results. induction texts as [|text texts IH]; intros results Hwf.
  - simpl. by rewrite app_nil_r.
  - simpl for_each. rewrite outcome_bind, batch_step_eq.
    assert (two_classes model_choice models texts) as Hwf'.
    { intros t l p Ht. apply Hwf. by right. }
    simpl omap. unfold row_for at 1.
    destruct (strip_nonempty text); [|by apply IH].
    destruct (predicted text model_choice models) as [[label probs]|] eqn:Hp;
      [|by apply IH].
    pose proof (Hwf text label probs (list_elem_of_here _ _) Hp) as Hlen.
    destruct probs as [|p0 [|p1 rest]]; simpl in Hlen; try lia.
    destruct (make_row_two text label p0 p1 rest) as (r & -> & _).
    simpl. rewrite IH by done. by rewrite <- app_assoc.
Qed.

Lemma make_row_Full_Text text label probs r :
  outcome (make_row text label probs) = inr r → Full_Text r = text.
Proof.
  unfold make_row.
  destruct (py_max probs) as [l1 [e1|q]];
    destruct (py_index probs 0) as [l2 [e2|a]];
    destruct (py_index probs 1) as [l3 [e3|b]];
    unfold mbind, Py_bind, outcome; simpl; intros [= <-]; done.
Qed.

Lemma row_for_served model_choice models text r :
  row_for model_choice models text = Some r →
  Full_Text r = text ∧ served model_choice models text = true.
Proof.
  unfold row_for, served.
  destruct (strip_nonempty text); [|done].
  destruct (predicted text model_choice models) as [[label probs]|]; [|done].
  destruct (outcome (make_row text label probs)) as [e|r'] eqn:Hrow; [done|].
  intros [= <-]. split; [by eapply make_row_Full_Text|].
  apply bool_decide_eq_true. eauto.
Qed.

Lemma served_row_for model_choice models text :
  two_classes model_choice models [text] →
  served model_choice models text = true →
  is_Some (row_for model_choice models text).
Proof.
  unfold row_for, served. intros Hwf.
  destruct (strip_nonempty text); [|done].
  destruct (predicted text model_choice models) as [[label probs]|] eqn:Hp;
    [|done].
  intros _.
  pose proof (Hwf text label probs (list_elem_of_here _ _) Hp) as Hlen.
  destruct probs as [|p0 [|p1 rest]]; simpl in Hlen; try lia.
  by destruct (make_row_two text label p0 p1 rest) as (r & -> & _).
Qed.

Lemma omap_cons_eq {A B} (f : A → option B) x l :
  omap f (x :: l) =
  match f x with Some y => y :: omap f l | None => omap f l end.
Proof. reflexivity. Qed.

Lemma rows_in_input_order model_choice models texts :
  two_classes model_choice models texts →
  Full_Text <$> omap (row_for model_choice models) texts =
  filter (λ text, Is_true (served model_choice models text)) texts.
Proof.
  induction texts as [|text texts IH]; intros Hwf; [done|].
  assert (two_classes model_choice models texts) as Hwf'.
  { intros t l p Ht. apply Hwf. by right. }
  assert (two_classes model_choice models [text]) as Hwf1.
  { intros t l p Ht. apply Hwf. apply list_elem_of_singleton in Ht as ->. by left. }
  rewrite omap_cons_eq, filter_cons.
  destruct (row_for model_choice models text) as [r|] eqn:Hr.
  - apply row_for_served in Hr as [<- Hs]. rewrite Hs.
    rewrite decide_True by done. rewrite fmap_cons. by rewrite IH.
  - destruct (served model_choice models text) eqn:Hs.
    + apply served_row_for in Hs; [|done]. rewrite Hr in Hs.
      by destruct Hs as [? [=]].
    + rewrite decide_False by (by rewrite Is_true_false). by apply IH.
Qed.

Lemma omap_length_le {A B} (f : A → option B) l :
  (length (omap f l) ≤ length l)%nat.
Proof.
  induction l as [|a l IH]; [done|].
  rewrite omap_cons_eq. destruct (f a); simpl; lia.
Qed.

Lemma omap_length_lt {A B} (f : A → option B) l :
  (length (omap f l) < length l)%nat ↔ ∃ x, x ∈ l ∧ f x = None.
Proof.
  induction l as [|a l IH].
  - simpl. split; [lia|]. intros (x & Hx & _). by apply elem_of_nil in Hx.
  - pose proof (omap_length_le f l). rewrite omap_cons_eq.
    destruct (f a) eqn:Ha; simpl.
    + rewrite <- Nat.succ_lt_mono, IH. split.
      * intros (x & Hx & Hn). exists x. split; [by right|done].
      * intros (x & Hx & Hn). apply elem_of_cons in Hx as [->|Hx];
          [congruence|eauto].
    + split; [|lia]. intros _. exists a. split; [by left|done].
Qed.

Lemma process_texts_outcome texts model_choice models rows :
  outcome (for_each (batch_step model_choice models) texts []) = inr rows →
  outcome (process_texts texts model_choice models) =
  inr (match texts with [] => None | _ => Some rows end).
Proof.
  intros Hloop. unfold process_texts. destruct texts as [|text texts]; [done|].
  rewrite outcome_try_except, outcome_bind. simpl outcome at 1.
  rewrite outcome_bind, Hloop. by destruct rows.
Qed.

Lemma row_for_None model_choice models text :
  two_classes model_choice models [text] →
  row_for model_choice models text = None ↔
  strip_nonempty text = false ∨ predicted text model_choice models = None.
Proof.
  intros Hwf. split.
  - intros Hr. destruct (served model_choice models text) eqn:Hs.
    + apply served_row_for in Hs; [|done]. rewrite Hr in Hs.
      by destruct Hs as [? [=]].
    + unfold served in Hs. apply andb_false_iff in Hs as [Hs|Hs]; [by left|].
      right. apply bool_decide_eq_false in Hs.
      by destruct (predicted text model_choice models); [destruct Hs; eauto|].
  - unfold row_for. by intros [->| ->]; [|destruct (strip_nonempty text)].
Qed.

(** C6, as the code has it. For models whose predictions carry at least two
    probabilities, the batch page ends with the rows of the texts that are
    not blank and whose prediction came back, in input order: at most one
    row per text, and fewer rows than texts exactly when some text is blank
    or its prediction failed. A text that yields no row does not stop the
    texts after it from yielding theirs. *)
Theorem batch_rows texts model_choice models :
  two_classes model_choice models texts →
  ∃ rows,
    outcome (process_texts texts model_choice models) =
      inr (match texts with [] => None | _ => Some rows end) ∧
    rows = omap (row_for model_choice models) texts ∧
    Full_Text <$> rows =
      filter (λ text, Is_true (served model_choice models text)) texts ∧
    (length rows ≤ length texts)%nat ∧
    ((length rows < length texts)%nat ↔
     ∃ text, text ∈ texts ∧
       (strip_nonempty text = false ∨
        predicted text model_choice models = None)).
Proof.
  intros Hwf. exists (omap (row_for model_choice models) texts).
  split; [|split; [done|split; [|split]]].
  - apply process_texts_outcome. by rewrite for_each_batch.
  - by apply rows_in_input_order.
  - apply omap_length_le.
  - rewrite omap_length_lt. split.
    + intros (text & Hin & Hr). exists text. split; [done|].
      apply row_for_None; [|done].
      intros t l p Ht. apply Hwf. by apply list_elem_of_singleton in Ht as ->.
    + intros (text & Hin & Hr). exists text. split; [done|].
      apply row_for_None; [|done].
      intros t l p Ht. apply Hwf. by apply list_elem_of_singleton in Ht as ->.
Qed.

Lemma two_classes_sample :
  two_classes "decision_tree" (Some registry_vectorizer_dt)
              ["Great product!"; " "].
Proof.
  intros text label probs Hin Hp.
  apply elem_of_cons in Hin as [->|Hin];
    [|apply list_elem_of_singleton in Hin as ->];
    vm_compute in Hp; injection Hp as <- <-; simpl; lia.
Defined.

Lemma batch_rows_witness :
  two_classes "decision_tree" (Some registry_vectorizer_dt)
              ["Great product!"; " "] ∧
  ∃ rows,
    outcome (process_texts ["Great product!"; " "] "decision_tree"
                           (Some registry_vectorizer_dt)) = inr (Some rows) ∧
    rows = omap (row_for "decision_tree" (Some registry_vectorizer_dt))
                ["Great product!"; " "] ∧
    Full_Text <$> rows =
      filter (λ text, Is_true (served "decision_tree"
                                      (Some registry_vectorizer_dt) text))
             ["Great product!"; " "] ∧
    (length rows ≤ 2)%nat ∧
    ((length rows < 2)%nat ↔
     ∃ text, text ∈ ["Great product!"; " "] ∧
       (strip_nonempty text = false ∨
        predicted text "decision_tree" (Some registry_vectorizer_dt) = None)).
Proof.
  exact (conj two_classes_sample
           (batch_rows ["Great product!"; " "] "decision_tree"
                       (Some registry_vectorizer_dt) two_classes_sample)).
Defined.

(** C6 as stated fails: of two texts one is blank, so one row comes out,
    although no prediction fails and the page reports one success and no
    error. *)
Lemma batch_blank_text_dropped :
  process_texts ["Great product!"; " "] "decision_tree"
                (Some registry_vectorizer_dt) =
    ([ ev_st info (Processing 2);
       ev_call "vectorizer" Transform (Texts ["Great product!"]);
       ev_call "decision_tree" Predict (Features [[1%Q]]);
       ev_call "decision_tree" PredictProba (Features [[1%Q]]);
       ev_st success (Processed 1) ],
     inr (Some [ {| Text := "Great product!"; Full_Text := "Great product!";
                    Prediction := "AI"; Confidence := "80.0%";
                    Human_Prob := "20.0%"; AI_Prob := "80.0%" |} ])) ∧
  predicted "Great product!" "decision_tree" (Some registry_vectorizer_dt)
    = Some ("AI", [(1 # 5)%Q; (4 # 5)%Q]) ∧
  predicted " " "decision_tree" (Some registry_vectorizer_dt)
    = Some ("AI", [(1 # 5)%Q; (4 # 5)%Q]).
Proof. repeat split; reflexivity. Qed.

(** ** Model comparison *)

Lemma use_individual_calls key text models ev :
  ev ∈ events (use_individual key text models) → is_call ev = true.
Proof.
  unfold use_individual, getitem, call_transform, call_predict,
    call_predict_proba.
  destruct (models !! "vectorizer") as [[b|v]|]; simpl;
    try (intros H; by apply elem_of_nil in H).
  unfold mbind, Py_bind, events, lift, item0; simpl.
  destruct (transform v (Texts [text])) as [e|X]; simpl;
    [intros Hin; set_unfold in Hin; intuition (by subst)|].
  destruct (models !! key) as [[b|o]|]; simpl;
    try (intros Hin; set_unfold in Hin; intuition (by subst)).
  destruct (predict o (Features X)) as [e|[|k ks]]; simpl;
    destruct (predict_proba o (Features X)) as [e'|[|p ps]]; simpl;
    intros Hin; set_unfold in Hin; intuition (by subst).
Qed.

Lemma raw_prediction_calls text model_choice models ev :
  ev ∈ events (raw_prediction text model_choice models) → is_call ev = true.
Proof.
  rewrite raw_prediction_resolve.
  destruct (resolve model_choice models) as [[|key]|]; simpl.
  - intros [->| ->]%use_pipeline_calls; done.
  - apply use_individual_calls.
  - intros H. by apply elem_of_nil in H.
Qed.

Lemma make_prediction_trace text model_choice models ev :
  ev ∈ events (make_prediction text model_choice models) →
  is_call ev = true ∨ ∃ msg, ev = ev_st error msg.
Proof.
  destruct models as [models|]; [|intros H; by apply elem_of_nil in H].
  rewrite make_prediction_eq. intros Hin.
  assert (∀ e, ev ∈ prediction_errors model_choice models e →
               ∃ msg, ev = ev_st error msg) as Herr.
  { unfold prediction_errors. intros e He. set_unfold in He.
    intuition eauto. }
  pose proof (raw_prediction_calls text model_choice models ev) as Hraw.
  repeat case_match; simpl in Hin; try (left; by apply Hraw);
    apply elem_of_app in Hin as [Hin|Hin]; eauto.
Qed.

Lemma make_prediction_not_agreement text model_choice models :
  Forall not_agreement (events (make_prediction text model_choice models)).
Proof.
  apply Forall_forall. intros ev Hin label ->.
  apply make_prediction_trace in Hin as [Hin|[msg Hin]]; discriminate.
Qed.

Lemma labels_returned_cons text model available_models models :
  labels_returned text (model :: available_models) models =
  labels_returned text [model] models
    ++ labels_returned text available_models models.
Proof.
  unfold labels_returned. rewrite !omap_cons_eq.
  by destruct (fst <$> predicted text model.1 models).
Qed.

Lemma comparison_step_eq text models results model :
  two_classes_each text [model] models →
  ∃ evs rows,
    comparison_step text models results model = (evs, inr (results ++ rows)) ∧
    Forall not_agreement evs ∧
    cmp_Prediction <$> rows = labels_returned text [model] models.
Proof.
  intros Hwf. destruct model as [model_key model_name].
  pose proof (Hwf (model_key, model_name)) as Hlen. simpl in Hlen.
  unfold labels_returned. rewrite omap_cons_eq. simpl.
  unfold comparison_step, predicted in *.
  pose proof (make_prediction_not_agreement text model_key models) as Hev.
  destruct (make_prediction_total text model_key models) as [[pred probs] Hr].
  destruct (make_prediction text model_key models) as [evs r].
  simpl in Hr, Hev. subst r. simpl in Hlen |- *.
  unfold mbind at 1, Py_bind at 1. simpl.
  destruct probs as [probs|];
    [|exists evs, []; by rewrite !app_nil_r].
  destruct (label_truthy pred);
    [|exists evs, []; by rewrite !app_nil_r].
  specialize (Hlen _ _ (list_elem_of_here _ _) eq_refl).
  destruct probs as [|p0 [|p1 rest]]; simpl in Hlen; try lia.
  eexists evs, [_]. simpl. rewrite app_nil_r. done.
Qed.

Lemma for_each_comparison text models available_models results :
  two_classes_each text available_models models →
  ∃ evs rows,
    for_each (comparison_step text models) available_models results
      = (evs, inr (results ++ rows)) ∧
    Forall not_agreement evs ∧
    cmp_Prediction <$> rows = labels_returned text available_models models.
Proof.
  revert results.
  induction available_models as [|model available_models IH];
    intros results Hwf.
  - exists [], []. by rewrite app_nil_r.
  - destruct (comparison_step_eq text models results model)
      as (evs1 & rows1 & Hstep & Hev1 & Hl1).
    { intros m l p Hm. apply Hwf. apply list_elem_of_singleton in Hm as ->.
      by left. }
    destruct (IH (results ++ rows1)) as (evs2 & rows2 & Hloop & Hev2 & Hl2).
    { intros m l p Hm. apply Hwf. by right. }
    exists (evs1 ++ evs2), (rows1 ++ rows2).
    split; [|split; [by apply Forall_app|]].
    + simpl for_each. rewrite Hstep.
      unfold mbind, Py_bind. simpl. rewrite Hloop. simpl.
      by rewrite app_assoc.
    + by rewrite (labels_returned_cons text model available_models),
        fmap_app, Hl1, Hl2.
Qed.

Lemma split_space_nonempty s : split_space s ≠ [].
Proof. destruct s as [|c s]; simpl; [done|]. repeat case_match; done. Qed.

Lemma split_space_second s :
  has_space s = true → ∃ w1 w2 ws, split_space s = w1 :: w2 :: ws.
Proof.
  induction s as [|c s IH]; simpl; [done|].
  destruct (Ascii.eqb c " "); simpl.
  - intros _. pose proof (split_space_nonempty s).
    destruct (split_space s) as [|w ws]; [done|]. eauto.
  - intros (w1 & w2 & ws & ->)%IH. eauto.
Qed.

Lemma disagree_line_eq result :
  ∃ model_name,
    disagree_line result =
    ([ev_st write (ModelSays model_name (cmp_Prediction result))], inr tt).
Proof.
  unfold disagree_line.
  destruct (has_space (Model result)) eqn:Hs.
  - apply split_space_second in Hs as (w1 & w2 & ws & ->). by exists w2.
  - by exists (Model result).
Qed.

Lemma for_each_disagree results :
  ∃ evs, for_each (λ _ result, disagree_line result) results tt = (evs, inr tt)
         ∧ Forall not_agreement evs.
Proof.
  induction results as [|r results (evs & IH & Hev)]; [by exists []|].
  destruct (disagree_line_eq r) as [name Hr].
  exists (ev_st write (ModelSays name (cmp_Prediction r)) :: evs).
  simpl for_each. rewrite Hr. unfold mbind, Py_bind. simpl. rewrite IH.
  split; [done|]. by constructor.
Qed.

Lemma size_list_to_set_1 (l : list string) :
  size (list_to_set l : gset string) = 1%nat ↔
  l ≠ [] ∧ ∀ x y, x ∈ l → y ∈ l → x = y.
Proof.
  split.
  - intros Hsize. split; [by intros ->|].
    apply size_1_elem_of in Hsize as [z Hz]. intros x y Hx Hy.
    assert (x ∈ (list_to_set l : gset string)) as Hx'
      by by apply elem_of_list_to_set.
    assert (y ∈ (list_to_set l : gset string)) as Hy'
      by by apply elem_of_list_to_set.
    rewrite Hz in Hx', Hy'.
    apply elem_of_singleton in Hx', Hy'. congruence.
  - intros [Hne Hall]. destruct l as [|z l]; [done|].
    assert ((list_to_set (z :: l) : gset string) = {[z]}) as ->.
    { apply set_eq. intros x. rewrite elem_of_list_to_set, elem_of_singleton.
      split; [|intros ->; by left].
      intros Hx. apply Hall; [done|by left]. }
    apply size_singleton.
Qed.

Lemma compare_models_eq text available_models models evs rows :
  for_each (comparison_step text models) available_models [] = (evs, inr rows) →
  ∃ report,
    compare_models text available_models models = (evs ++ report, inr rows) ∧
    match rows with
    | [] => report = [ev_st error FailedToGetPredictions]
    | r :: _ =>
        if (size (list_to_set (cmp_Prediction <$> rows) : gset string) =? 1)%nat
        then report = [ev_st success (AllAgree (cmp_Prediction r))]
        else Forall not_agreement report
    end.
Proof.
  intros Hloop. unfold compare_models. rewrite Hloop.
  unfold mbind at 1, Py_bind at 1. simpl.
  destruct rows as [|r rows]; [by eexists|].
  destruct (size _ =? 1)%nat.
  - by eexists.
  - destruct (for_each_disagree (r :: rows)) as (evs' & Hd & Hev').
    exists (ev_st warning ModelsDisagree :: evs').
    unfold mbind, Py_bind. simpl. unfold mbind, Py_bind in Hd. simpl in Hd.
    rewrite Hd. simpl. rewrite app_nil_r. split; [done|]. by constructor.
Qed.

(** C9, as the code has it. Full agreement is reported exactly when at
    least one model choice produced a result and all the results carry the
    same label; when no choice produced a result the page reports a failure
    instead. In particular, if some model answered and every answer is AI,
    agreement on AI is reported. *)
Theorem compare_models_agreement text available_models models :
  two_classes_each text available_models models →
  let labels := labels_returned text available_models models in
  ∃ results,
    outcome (compare_models text available_models models) = inr results ∧
    cmp_Prediction <$> results = labels ∧
    (reports_agreement (compare_models text available_models models) ↔
     labels ≠ [] ∧ ∀ l1 l2, l1 ∈ labels → l2 ∈ labels → l1 = l2) ∧
    (labels ≠ [] → (∀ l, l ∈ labels → l = "AI") →
     ev_st success (AllAgree "AI")
       ∈ events (compare_models text available_models models)) ∧
    (labels = [] →
     ev_st error FailedToGetPredictions
       ∈ events (compare_models text available_models models)).
Proof.
  intros Hwf labels.
  destruct (for_each_comparison text models available_models [] Hwf)
    as (evs & rows & Hloop & Hev & Hl).
  simpl in Hloop. fold labels in Hl.
  destruct (compare_models_eq _ _ _ _ _ Hloop) as (report & Heq & Hrep).
  exists rows. unfold reports_agreement. rewrite Heq. simpl.
  split; [done|]. split; [done|].
  assert (∀ label, ev_st success (AllAgree label) ∈ evs → False) as Hquiet.
  { intros label Hin. eapply Forall_forall in Hev; [|done]. by eapply Hev. }
  pose proof (size_list_to_set_1 labels) as Hsize. rewrite <- Hl in Hsize.
  destruct rows as [|r rows].
  - subst report. simpl in Hl. rewrite <- Hl. split; [|split; [done|]].
    + split; [|by intros [? _]].
      intros [label [Hin|Hin]%elem_of_app]; [by apply Hquiet in Hin|].
      by apply list_elem_of_singleton in Hin.
    + intros _. apply elem_of_app. right. by left.
  - destruct (Nat.eqb_spec
                (size (list_to_set (cmp_Prediction <$> r :: rows) : gset string))
                1) as [H1|H1].
    + subst report. apply Hsize in H1 as Hsame. rewrite Hl in Hsame.
      split; [|split].
      * split; [done|]. intros _. exists (cmp_Prediction r).
        apply elem_of_app. right. by left.
      * intros _ HAI. rewrite <- (HAI (cmp_Prediction r)).
        -- apply elem_of_app. right. by left.
        -- rewrite <- Hl. by left.
      * intros Hnil. by rewrite Hnil in Hl.
    + assert (∀ label, ev_st success (AllAgree label) ∈ report → False) as Hq2.
      { intros label Hin. eapply Forall_forall in Hrep; [|done].
        by eapply Hrep. }
      split; [|split].
      * split.
        -- intros [label [Hin|Hin]%elem_of_app];
             [by apply Hquiet in Hin|by apply Hq2 in Hin].
        -- intros Hsame. rewrite <- Hl in Hsame. by apply Hsize in Hsame.
      * intros Hne HAI. destruct H1. apply Hsize. rewrite Hl.
        split; [done|]. intros x y Hx Hy.
        by rewrite (HAI x Hx), (HAI y Hy).
      * intros Hnil. by rewrite Hnil in Hl.
Qed.

Lemma two_classes_each_sample :
  two_classes_each "Great product!"
    (get_available_models (Some registry_individual))
    (Some registry_individual).
Proof.
  intros model label probs Hin Hp.
  apply list_elem_of_In in Hin. vm_compute in Hin.
  destruct Hin as [<-|[<-|[<-|[]]]];
    vm_compute in Hp; injection Hp as <- <-; simpl; lia.
Defined.

Lemma compare_models_agreement_witness :
  two_classes_each "Great product!"
    (get_available_models (Some registry_individual))
    (Some registry_individual) ∧
  labels_returned "Great product!"
    (get_available_models (Some registry_individual))
    (Some registry_individual) = ["AI"; "AI"; "AI"] ∧
  ev_st success (AllAgree "AI")
    ∈ events (compare_models "Great product!"
                (get_available_models (Some registry_individual))
                (Some registry_individual)).
Proof.
  split; [exact two_classes_each_sample|]. split; [reflexivity|].
  destruct (compare_models_agreement "Great product!"
              (get_available_models (Some registry_individual))
              (Some registry_individual) two_classes_each_sample)
    as (results & _ & _ & _ & HAI & _).
  apply HAI; [discriminate|].
  intros l Hl. apply list_elem_of_In in Hl. vm_compute in Hl.
  destruct Hl as [<-|[<-|[<-|[]]]]; reflexivity.
Defined.

(** C9 as stated fails: three choices are offered, none produces a result,
    so all results that exist carry the same label, yet no agreement is
    reported; the page reports a failure. *)
Lemma compare_models_no_result :
  get_available_models (Some registry_broken_vectorizer)
    = [("svm", "📈 SVM (Individual)"); ("decision_tree", "🎯 Decision Tree");
       ("adaboost", "🎯 AdaBoost")] ∧
  outcome (compare_models "Great product!"
             (get_available_models (Some registry_broken_vectorizer))
             (Some registry_broken_vectorizer)) = inr [] ∧
  (∀ r1 r2 : comparison,
     r1 ∈ @nil comparison → r2 ∈ @nil comparison →
     cmp_Prediction r1 = cmp_Prediction r2) ∧
  ¬ reports_agreement
      (compare_models "Great product!"
         (get_available_models (Some registry_broken_vectorizer))
         (Some registry_broken_vectorizer)) ∧
  ev_st error FailedToGetPredictions
    ∈ events (compare_models "Great product!"
                (get_available_models (Some registry_broken_vectorizer))
                (Some registry_broken_vectorizer)).
Proof.
  split; [reflexivity|]. split; [reflexivity|]. split.
  { intros r1 r2 H. by apply elem_of_nil in H. }
  split.
  - intros [label Hin]. apply list_elem_of_In in Hin.
    vm_compute in Hin.
    repeat (destruct Hin as [Hin|Hin]; [discriminate|]). done.
  - apply list_elem_of_In. vm_compute. tauto.
Qed.

(** ** Scenarios of the specification *)

(** Text "Great product!" through a stub answering [P(AI) = 0.2]: label
    Human, confidence 80.0%. *)
Example great_product_human :
  outcome (process_texts ["Great product!"] "svm" (Some registry_all)) =
  inr (Some [ {| Text := "Great product!"; Full_Text := "Great product!";
                 Prediction := "Human"; Confidence := "80.0%";
                 Human_Prob := "80.0%"; AI_Prob := "20.0%" |} ]).
Proof. reflexivity. Qed.

(** A prediction that raises in the middle of a batch costs its own row
    only. *)
Example batch_continues_after_failure :
  predicted "bad" "svm" (Some registry_picky_pipeline) = None ∧
  ∃ first last,
    outcome (process_texts ["first"; "bad"; "last"] "svm"
                           (Some registry_picky_pipeline))
      = inr (Some [first; last]) ∧
    Full_Text first = "first" ∧ Full_Text last = "last".
Proof. split; [reflexivity|]. do 2 eexists. repeat split; reflexivity. Qed.

(** * The rest of the pages: properties *)

(** ** Strings *)

Lemma lstrip_empty s : lstrip s = "" ↔ strip_nonempty s = false.
Proof.
  induction s as [|c s IH]; simpl; [done|].
  destruct (is_space c); simpl; [done|]. split; discriminate.
Qed.

Lemma rstrip_empty s : rstrip s = "" ↔ strip_nonempty s = false.
Proof.
  induction s as [|c s IH]; simpl; [done|].
  destruct (rstrip s) eqn:Hr.
  - destruct (is_space c); simpl; [by rewrite <- IH|]. split; discriminate.
  - split; [discriminate|]. intros [_ H]%orb_false_iff.
    apply IH in H. discriminate.
Qed.

Lemma strip_nonempty_lstrip s : strip_nonempty (lstrip s) = strip_nonempty s.
Proof.
  induction s as [|c s IH]; simpl; [done|].
  destruct (is_space c) eqn:Hc; simpl; by rewrite ?Hc.
Qed.

Lemma strip_nonempty_rstrip s : strip_nonempty (rstrip s) = strip_nonempty s.
Proof.
  induction s as [|c s IH]; simpl; [done|].
  destruct (rstrip s) eqn:Hr.
  - assert (strip_nonempty s = false) as -> by by apply rstrip_empty.
    destruct (is_space c) eqn:Hc; simpl; by rewrite ?Hc.
  - change (strip_nonempty (String c (String a s0)))
      with (negb (is_space c) || strip_nonempty (String a s0)).
    by rewrite IH.
Qed.

Lemma strip_empty s : strip s = "" ↔ strip_nonempty s = false.
Proof. unfold strip. by rewrite rstrip_empty, strip_nonempty_lstrip. Qed.

Lemma rstrip_idem s : rstrip (rstrip s) = rstrip s.
Proof.
  induction s as [|c s IH]; simpl; [done|].
  destruct (rstrip s) eqn:Hr.
  - destruct (is_space c) eqn:Hc; simpl; [done|]. by rewrite Hc.
  - simpl. simpl in IH. by rewrite IH.
Qed.

Lemma lstrip_head s :
  lstrip s = "" ∨ ∃ c rest, lstrip s = String c rest ∧ is_space c = false.
Proof.
  induction s as [|c s IH]; simpl; [by left|].
  destruct (is_space c) eqn:Hc; [done|]. right. eauto.
Qed.

Lemma rstrip_head c rest :
  is_space c = false → ∃ rest', rstrip (String c rest) = String c rest'.
Proof. intros Hc. simpl. rewrite Hc. destruct (rstrip rest); eauto. Qed.

Lemma strip_idem s : strip (strip s) = strip s.
Proof.
  unfold strip.
  destruct (lstrip_head s) as [->|(c & rest & -> & Hc)]; [done|].
  destruct (rstrip_head c rest Hc) as [rest' Hr]. rewrite Hr.
  simpl lstrip. rewrite Hc. rewrite <- Hr. apply rstrip_idem.
Qed.

Lemma split_on_nonempty sep s : split_on sep s ≠ [].
Proof. destruct s as [|c s]; simpl; [done|]. repeat case_match; done. Qed.

Lemma join_cons sep x y l :
  join sep (x :: y :: l) = x +:+ sep +:+ join sep (y :: l).
Proof. reflexivity. Qed.

(** Splitting and joining back gives the string. *)
Lemma join_split_on sep s : join (String sep "") (split_on sep s) = s.
Proof.
  induction s as [|c s IH]; [done|]. cbn [split_on].
  pose proof (split_on_nonempty sep s) as Hne.
  destruct (Ascii.eqb_spec c sep) as [->|Hc].
  - destruct (split_on sep s) as [|w ws]; [done|].
    rewrite join_cons, IH. reflexivity.
  - destruct (split_on sep s) as [|w [|w' ws]]; [done| |].
    + simpl in *. by rewrite IH.
    + rewrite join_cons in *. rewrite <- IH. reflexivity.
Qed.

Lemma split_on_no_sep sep s : has_char sep s = false → split_on sep s = [s].
Proof.
  induction s as [|c s IH]; [done|]. cbn [split_on has_char].
  intros [Hc Hs]%orb_false_iff. rewrite Hc, IH by done. done.
Qed.

Lemma split_on_join_cons sep x rest :
  has_char sep x = false →
  split_on sep (x +:+ String sep "" +:+ rest) = x :: split_on sep rest.
Proof.
  induction x as [|c x IH]; cbn [has_char].
  - intros _. simpl. by rewrite Ascii.eqb_refl.
  - intros [Hc Hx]%orb_false_iff.
    change (String c x +:+ String sep "" +:+ rest)
      with (String c (x +:+ String sep "" +:+ rest)).
    cbn [split_on]. rewrite Hc, IH by done. done.
Qed.

(** Joining and splitting back gives the list, when no piece holds the
    separator. *)
Lemma split_on_join sep l :
  l ≠ [] → Forall (λ x, has_char sep x = false) l →
  split_on sep (join (String sep "") l) = l.
Proof.
  induction l as [|x l IH]; [done|]. intros _ Hl.
  apply Forall_cons in Hl as [Hx Hl].
  destruct l as [|y l]; [by apply split_on_no_sep|].
  rewrite join_cons, split_on_join_cons by done. by rewrite IH.
Qed.

Lemma split_on_pieces sep s :
  Forall (λ x, has_char sep x = false) (split_on sep s).
Proof.
  induction s as [|c s IH]; [by repeat constructor|]. cbn [split_on].
  pose proof (split_on_nonempty sep s) as Hne.
  destruct (Ascii.eqb c sep) eqn:Hc; [by constructor|].
  destruct (split_on sep s) as [|w ws]; [done|].
  apply Forall_cons in IH as [Hw Hws]. constructor; [|done].
  simpl. by rewrite Hc.
Qed.

Lemma has_char_lstrip c s : has_char c s = false → has_char c (lstrip s) = false.
Proof.
  induction s as [|c' s IH]; [done|]. simpl.
  intros [Hc Hs]%orb_false_iff. destruct (is_space c'); [by apply IH|].
  simpl. by rewrite Hc, Hs.
Qed.

Lemma has_char_rstrip c s : has_char c s = false → has_char c (rstrip s) = false.
Proof.
  induction s as [|c' s IH]; [done|]. simpl.
  intros [Hc Hs]%orb_false_iff. specialize (IH Hs).
  destruct (rstrip s); [destruct (is_space c')|]; simpl in *;
    by rewrite ?Hc, ?IH.
Qed.

Lemma strip_nonempty_strip s : strip_nonempty (strip s) = strip_nonempty s.
Proof. unfold strip. by rewrite strip_nonempty_rstrip, strip_nonempty_lstrip. Qed.

(** ** Reading the file *)

(** X1. The texts read from a text file or a Word document are clean: none is
    blank, none has white space at either end, none holds a line break;
    and there is none at all exactly when every line is blank. *)
Theorem line_texts_clean content :
  Forall (λ text, strip_nonempty text = true ∧ strip text = text
                  ∧ has_char newline text = false)
         (line_texts content) ∧
  (line_texts content = [] ↔
   Forall (λ line, strip_nonempty line = false) (split_on newline content)).
Proof.
  unfold line_texts. split.
  - apply Forall_fmap, Forall_forall. intros line Hin.
    apply list_elem_of_filter in Hin as [Hne Hin]. simpl.
    rewrite strip_nonempty_strip, strip_idem. split; [by apply Is_true_true|].
    split; [done|]. unfold strip.
    apply has_char_rstrip, has_char_lstrip.
    pose proof (split_on_pieces newline content) as Hp.
    by eapply Forall_forall in Hp.
  - split.
    + intros Hnil%fmap_nil_inv. apply Forall_forall. intros line Hin.
      destruct (strip_nonempty line) eqn:Hs; [|done].
      assert (line ∈ filter (λ line, Is_true (strip_nonempty line))
                       (split_on newline content)) as Hf.
      { apply list_elem_of_filter. split; [by apply Is_true_true|done]. }
      rewrite Hnil in Hf. by apply elem_of_nil in Hf.
    + generalize (split_on newline content). intros lines Hall.
      induction Hall as [|line lines Hl _ IH]; [done|].
      rewrite filter_cons, decide_False; [done|]. rewrite Hl. intros [].
Qed.

(** X2. A Word document whose paragraphs and cells hold no line break gives
    one text per paragraph or cell that is not blank, stripped, paragraphs
    first and then the cells table by table and row by row. *)
Theorem docx_texts doc :
  Forall (λ x, has_char newline x = false)
         (paragraphs doc ++ concat (concat (tables doc))) →
  line_texts (extract_text doc) =
  strip <$> filter (λ x, Is_true (strip_nonempty x))
                   (paragraphs doc ++ concat (concat (tables doc))).
Proof.
  intros Hnl. unfold line_texts, extract_text. simpl app.
  destruct (paragraphs doc ++ concat (concat (tables doc))) as [|x l] eqn:Hl.
  - reflexivity.
  - by rewrite split_on_join.
Qed.

Lemma docx_texts_witness :
  Forall (λ x, has_char newline x = false)
         (paragraphs sample_document
            ++ concat (concat (tables sample_document))) ∧
  line_texts (extract_text sample_document) =
  ["First review."; "Second review."; "cell one"; "cell two"].
Proof.
  assert (H : Forall (λ x, has_char newline x = false)
                (paragraphs sample_document
                   ++ concat (concat (tables sample_document)))).
  { repeat constructor. }
  split; [exact H|]. rewrite (docx_texts sample_document H). reflexivity.
Defined.

Lemma read_texts_events f : events (read_texts f) = [].
Proof.
  unfold read_texts.
  destruct (read_utf8 f), (csv_first_column f), (pdf_page_texts f),
    (docx_document f); repeat case_match; reflexivity.
Qed.

Lemma process_file_read f model_choice models :
  process_file f model_choice models =
  match outcome (read_texts f) with
  | inr texts => process_texts texts model_choice models
  | inl e => ([ev_st error (ErrorProcessingFile e)], inr None)
  end.
Proof.
  unfold process_file.
  pose proof (read_texts_events f) as Hev.
  destruct (read_texts f) as [evs [e|texts]]; simpl in Hev; subst evs.
  - reflexivity.
  - change (@pair (list event) (exn + list string) [] (inr texts))
      with (mret texts : Py (list string)).
    rewrite mret_bind. reflexivity.
Qed.

Lemma process_texts_total texts model_choice models :
  ∃ r, outcome (process_texts texts model_choice models) = inr r.
Proof.
  unfold process_texts. rewrite outcome_try_except.
  destruct (outcome _); by eexists.
Qed.

(** X3. The "Process File" button never lets an exception out. If reading
    the file raises, the exception is reported as "Error processing file"
    and no model is called; otherwise the page does what [process_texts]
    does on the texts read. *)
Theorem process_file_safe f model_choice models :
  (∃ r, outcome (process_file f model_choice models) = inr r) ∧
  process_file f model_choice models =
  match outcome (read_texts f) with
  | inr texts => process_texts texts model_choice models
  | inl e => ([ev_st error (ErrorProcessingFile e)], inr None)
  end.
Proof.
  split; [|apply process_file_read].
  rewrite process_file_read. destruct (outcome (read_texts f)); [by eexists|].
  apply process_texts_total.
Qed.

Lemma process_texts_starts text texts model_choice models :
  ∃ evs r,
    process_texts (text :: texts) model_choice models =
    (ev_st info (Processing (S (length texts))) :: evs, r).
Proof.
  unfold process_texts. rewrite tell_bind. unfold try_except. simpl.
  destruct (outcome _); by do 2 eexists.
Qed.

Lemma fold_append_empty pages :
  Forall (λ page, page = "") pages →
  fold_left (λ texts page : string, texts +:+ page) pages "" = "".
Proof. induction 1 as [|page pages -> _ IH]; [done|]. by simpl. Qed.

(** X4. A PDF never gives an empty list of texts: its pages are glued
    together and cut at tab characters, which can be undone by joining with
    tabs. So "No text found in file" cannot appear for a PDF; a PDF whose
    pages hold no text at all is processed as one empty text and ends with
    "No valid texts could be processed". *)
Theorem pdf_texts f pages model_choice models :
  file_suffix f = ".pdf" →
  pdf_page_texts f = inr pages →
  let whole := fold_left (λ texts page : string, texts +:+ page) pages "" in
  ∃ texts,
    read_texts f = ([], inr texts) ∧
    texts ≠ [] ∧
    join (String tab "") texts = whole ∧
    (∃ evs r, process_file f model_choice models =
              (ev_st info (Processing (length texts)) :: evs, r)) ∧
    (Forall (λ page, page = "") pages →
     process_file f model_choice models =
       ([ev_st info (Processing 1); ev_st error NoValidTexts],
        inr (Some []))).
Proof.
  intros Hs Hp whole. exists (split_on tab whole).
  assert (read_texts f = ([], inr (split_on tab whole))) as Hread.
  { unfold read_texts. rewrite Hs, Hp. reflexivity. }
  split; [done|]. split; [apply split_on_nonempty|].
  split; [apply join_split_on|].
  rewrite process_file_read, Hread. simpl outcome. split.
  - pose proof (split_on_nonempty tab whole) as Hne.
    destruct (split_on tab whole) as [|text texts]; [done|].
    apply process_texts_starts.
  - intros Hall. unfold whole. rewrite fold_append_empty by done.
    reflexivity.
Qed.

Lemma pdf_texts_witness :
  file_suffix (sample_pdf sample_pages) = ".pdf" ∧
  pdf_page_texts (sample_pdf sample_pages) = inr sample_pages ∧
  ∃ texts,
    read_texts (sample_pdf sample_pages) = ([], inr texts) ∧
    texts ≠ [] ∧
    join (String tab "") texts = "onetwo" +:+ String tab "three".
Proof.
  split; [reflexivity|]. split; [reflexivity|].
  destruct (pdf_texts (sample_pdf sample_pages) sample_pages
              "svm" None eq_refl eq_refl) as (texts & Hread & Hne & Hjoin & _).
  exists texts. split; [exact Hread|]. split; [exact Hne|exact Hjoin].
Defined.

(** ** Batch processing of files *)

Lemma line_texts_nonblank content :
  Forall (λ text, strip_nonempty text = true) (line_texts content).
Proof.
  unfold line_texts. apply Forall_fmap, Forall_forall. intros line Hin.
  apply list_elem_of_filter in Hin as [Hne _]. simpl.
  rewrite strip_nonempty_strip. by apply Is_true_true.
Qed.

Lemma rows_nonblank model_choice models texts :
  two_classes model_choice models texts →
  Forall (λ text, strip_nonempty text = true) texts →
  ((length (omap (row_for model_choice models) texts) < length texts)%nat ↔
   ∃ text, text ∈ texts ∧ predicted text model_choice models = None).
Proof.
  intros Hwf Hnb. rewrite omap_length_lt.
  assert (∀ text, text ∈ texts →
            row_for model_choice models text = None ↔
            predicted text model_choice models = None) as Hrow.
  { intros text Hin. rewrite row_for_None.
    - eapply Forall_forall in Hnb; [|done]. rewrite Hnb.
      split; [by intros [?|?]|by right].
    - intros t l p Ht. apply Hwf.
      by apply list_elem_of_singleton in Ht as ->. }
  split; intros (text & Hin & H); exists text; (split; [done|]);
    by apply Hrow.
Qed.

(** X5. For a text file, whose texts are never blank, the batch gives fewer
    rows than texts exactly when the prediction of some text failed (models
    returning at least two probabilities). *)
Theorem txt_file_rows f content model_choice models :
  file_suffix f = ".txt" →
  read_utf8 f = inr content →
  two_classes model_choice models (line_texts content) →
  let texts := line_texts content in
  ∃ rows,
    outcome (process_file f model_choice models) =
      inr (match texts with [] => None | _ => Some rows end) ∧
    rows = omap (row_for model_choice models) texts ∧
    ((length rows < length texts)%nat ↔
     ∃ text, text ∈ texts ∧ predicted text model_choice models = None).
Proof.
  intros Hs Hr Hwf texts. exists (omap (row_for model_choice models) texts).
  assert (read_texts f = ([], inr texts)) as Hread.
  { unfold read_texts. rewrite Hs, Hr. reflexivity. }
  rewrite process_file_read, Hread. simpl outcome.
  split; [|split; [done|]].
  - apply process_texts_outcome. by rewrite for_each_batch.
  - apply rows_nonblank; [done|]. apply line_texts_nonblank.
Qed.

Lemma two_classes_picky :
  two_classes "svm" (Some registry_picky_pipeline)
              (line_texts sample_content).
Proof.
  intros text label probs Hin Hp.
  apply list_elem_of_In in Hin. vm_compute in Hin.
  destruct Hin as [<-|[<-|[]]]; vm_compute in Hp;
    [injection Hp as <- <-; simpl; lia | discriminate].
Defined.

Lemma txt_file_rows_witness :
  two_classes "svm" (Some registry_picky_pipeline)
              (line_texts sample_content) ∧
  ∃ rows,
    outcome (process_file (sample_txt sample_content) "svm" (Some registry_picky_pipeline)) = inr (Some rows) ∧
    Full_Text <$> rows = ["Great product!"].
Proof.
  split; [exact two_classes_picky|].
  destruct (txt_file_rows (sample_txt sample_content) _ "svm" (Some registry_picky_pipeline) eq_refl eq_refl two_classes_picky)
    as (rows & Hout & -> & _).
  eexists. split; [exact Hout|]. reflexivity.
Defined.

Lemma make_prediction_labels text model_choice models label probs :
  outcome (make_prediction text model_choice models) = inr (Some label, probs) →
  label = "Human" ∨ label = "AI".
Proof.
  destruct models as [models|]; [|done].
  rewrite make_prediction_eq.
  repeat case_match; simpl; intros [= <- _]; auto.
Qed.

Lemma predicted_label text model_choice models label probs :
  predicted text model_choice models = Some (label, probs) →
  label = "Human" ∨ label = "AI".
Proof.
  unfold predicted.
  destruct (outcome (make_prediction text model_choice models))
    as [e|[[pred|] [probs'|]]] eqn:Hm; try done.
  destruct (label_truthy (Some pred)); [|done]. simpl. intros [= <- _].
  by eapply make_prediction_labels.
Qed.

Lemma make_row_Prediction text label probs r :
  outcome (make_row text label probs) = inr r → Prediction r = label.
Proof.
  unfold make_row.
  destruct (py_max probs) as [l1 [e1|q]];
    destruct (py_index probs 0) as [l2 [e2|a]];
    destruct (py_index probs 1) as [l3 [e3|b]];
    unfold mbind, Py_bind, outcome; simpl; intros [= <-]; done.
Qed.

Lemma batch_labels model_choice models texts results rows :
  outcome (for_each (batch_step model_choice models) texts results) = inr rows →
  Forall (λ r, Prediction r = "Human" ∨ Prediction r = "AI") results →
  Forall (λ r, Prediction r = "Human" ∨ Prediction r = "AI") rows.
Proof.
  revert results. induction texts as [|text texts IH]; intros results.
  - by intros [= <-].
  - simpl for_each. rewrite outcome_bind, batch_step_eq.
    destruct (strip_nonempty text); [|by apply IH].
    destruct (predicted text model_choice models) as [[label probs]|] eqn:Hp;
      [|by apply IH].
    destruct (outcome (make_row text label probs)) as [e|r] eqn:Hr; [done|].
    intros Hloop Hres. eapply IH; [done|].
    apply Forall_app. split; [done|]. constructor; [|done].
    apply make_row_Prediction in Hr as ->. by eapply predicted_label.
Qed.

(** X6. In the summary of a batch, the AI count and the Human count add up to
    the number of rows, and the Human count, computed as the rest, is the
    number of rows labelled Human: every row carries one of the two labels. *)
Theorem summary_counts model_choice models texts rows :
  outcome (for_each (batch_step model_choice models) texts []) = inr rows →
  (positive_count rows + negative_count rows = length rows)%nat ∧
  negative_count rows = length (filter (λ r, Prediction r = "Human") rows).
Proof.
  intros Hloop. apply batch_labels in Hloop; [|done].
  unfold negative_count, positive_count.
  induction Hloop as [|r rows [Hr|Hr] _ [IH1 IH2]]; [done| |];
    rewrite !filter_cons, Hr; simpl;
    pose proof (length_filter (λ r, Prediction r = "AI") rows) as Hle;
    repeat case_decide; try done; simpl; lia.
Qed.

Lemma summary_counts_witness :
  ∃ rows,
    outcome (for_each (batch_step "svm" (Some registry_all))
                      ["Great product!"; "Another one"] []) = inr rows ∧
    (positive_count rows + negative_count rows = 2)%nat ∧
    negative_count rows = 2%nat.
Proof.
  eexists. split; [reflexivity|].
  destruct (summary_counts "svm" (Some registry_all)
              ["Great product!"; "Another one"] _ eq_refl) as [H1 H2].
  split; [exact H1|]. rewrite H2. reflexivity.
Defined.

(** ** Loading, continued *)

Lemma bind_inr {A B} (c : Py A) (f : A → Py B) b :
  outcome (c ≫= f) = inr b → ∃ a, outcome c = inr a ∧ outcome (f a) = inr b.
Proof. rewrite outcome_bind. destruct (outcome c); [done|]. eauto. Qed.

Lemma load_one_inr fs key flag path m m' :
  outcome (load_one fs key flag path m) = inr m' →
  (∃ o, fs path = inr o ∧
        m' = setitem flag (VBool true) (setitem key (VObj o) m)) ∨
  (fs path = inl FileNotFoundError ∧ m' = setitem flag (VBool false) m).
Proof.
  rewrite load_one_status. unfold status. simpl.
  destruct (fs path) as [e|o]; [|intros [= <-]; eauto].
  destruct e; simpl; try done. intros [= <-]. by right.
Qed.

Lemma load_artifacts_recorded fs models :
  outcome (load_artifacts fs) = inr models →
  Forall (recorded fs models) artifacts.
Proof.
  unfold load_artifacts.
  intros (m1 & H1 & (m2 & H2 & (m3 & H3 & (m4 & H4 & H5)%bind_inr)%bind_inr)
            %bind_inr)%bind_inr.
  apply load_one_inr in H1, H2, H3, H4, H5.
  (destruct H1 as [(o1 & E1 & ->)|[E1 ->]];
  destruct H2 as [(o2 & E2 & ->)|[E2 ->]];
  destruct H3 as [(o3 & E3 & ->)|[E3 ->]];
  destruct H4 as [(o4 & E4 & ->)|[E4 ->]];
  destruct H5 as [(o5 & E5 & ->)|[E5 ->]]).
  all: (repeat constructor; cbv [recorded]; rewrite_loads fs;
             split; vm_compute; reflexivity).
Qed.

Lemma load_models_inr fs models :
  outcome (load_models fs) = inr (Some models) →
  outcome (load_artifacts fs) = inr models ∧
  outcome (complete_setup models) = inr true.
Proof.
  unfold load_models. rewrite outcome_try_except.
  destruct (outcome (_ ≫= _)) as [e|r] eqn:Hbody; [done|].
  intros [= ->].
  apply bind_inr in Hbody as (m & Hload & (ready & Hready & Hret)%bind_inr).
  destruct ready; simpl in Hret; [|done]. by injection Hret as ->.
Qed.

Lemma recorded_flags fs models :
  Forall (recorded fs models) artifacts →
  truthy (models !! "pipeline_available")
    = loaded (fs "models/ai_detection_pipeline.pkl") ∧
  truthy (models !! "vectorizer_available")
    = loaded (fs "models/tfidf_vectorizer.pkl") ∧
  truthy (models !! "svm_available") = loaded (fs "models/svm_model.pkl") ∧
  truthy (models !! "dt_available") = loaded (fs "models/dt_model.pkl") ∧
  truthy (models !! "ada_available") = loaded (fs "models/ada_model.pkl").
Proof.
  unfold artifacts. intros H.
  repeat (apply Forall_cons in H as [[-> _] H]). done.
Qed.

(** X7. A registry that [load_models] returns is consistent: each flag is
    [True] exactly when its object is stored, the object being the one
    loaded from the artifact's file; the dict is not empty; and at least
    one model choice is offered. *)
Theorem load_models_registry fs models :
  outcome (load_models fs) = inr (Some models) →
  Forall (recorded fs models) artifacts ∧
  dom models ≠ ∅ ∧
  get_available_models (Some models) ≠ [].
Proof.
  intros [Hload Hready]%load_models_inr.
  apply load_artifacts_recorded in Hload as Hrec.
  split; [done|].
  pose proof (recorded_flags _ _ Hrec) as (Hp & Hv & Hs & Hd & Ha).
  split.
  - unfold artifacts in Hrec. apply Forall_cons in Hrec as [[Hflag _] _].
    intros Hdom. apply (elem_of_dom_2 (D := gset string)) in Hflag.
    rewrite Hdom in Hflag. by apply not_elem_of_empty in Hflag.
  - revert Hready. unfold complete_setup, getitem, get_available_models,
      value_truth.
    unfold artifacts in Hrec.
    repeat (apply Forall_cons in Hrec as [[-> _] Hrec]). simpl.
    destruct (loaded (fs "models/ai_detection_pipeline.pkl"));
      destruct (loaded (fs "models/tfidf_vectorizer.pkl"));
      destruct (loaded (fs "models/svm_model.pkl"));
      destruct (loaded (fs "models/dt_model.pkl"));
      destruct (loaded (fs "models/ada_model.pkl")); simpl; done.
Qed.

Lemma load_models_registry_witness :
  outcome (load_models fs_vectorizer_dt) = inr (Some registry_vectorizer_dt) ∧
  Forall (recorded fs_vectorizer_dt registry_vectorizer_dt) artifacts ∧
  dom registry_vectorizer_dt ≠ ∅ ∧
  get_available_models (Some registry_vectorizer_dt) ≠ [].
Proof.
  assert (H : outcome (load_models fs_vectorizer_dt)
              = inr (Some registry_vectorizer_dt)) by reflexivity.
  exact (conj H (load_models_registry fs_vectorizer_dt _ H)).
Defined.

(** ** Prediction, continued *)

(** X8. [make_prediction] never raises. After the model calls it made, it
    reports either nothing, or the three error messages, and in that case
    what it returns is the empty result. *)
Theorem make_prediction_safe text model_choice models :
  ∃ calls,
    Forall (λ ev, is_call ev = true) calls ∧
    ((∃ r, make_prediction text model_choice (Some models) = (calls, inr r)) ∨
     (∃ e, make_prediction text model_choice (Some models) =
           (calls ++ prediction_errors model_choice models e,
            inr (None, None)))).
Proof.
  exists (events (raw_prediction text model_choice models)). split.
  - apply Forall_forall. intros ev. apply raw_prediction_calls.
  - rewrite make_prediction_eq. repeat case_match; eauto.
Qed.

(** X9. The class index is used as a Python list index into
    [['Human', 'AI']]: besides 0 and 1, the index -2 gives Human and -1
    gives AI; any other index makes the prediction fail with an IndexError
    that is reported, and the result is empty. *)
Theorem class_index_bounds text model_choice models k probs :
  outcome (raw_prediction text model_choice models) = inr (Some k, Some probs) →
  (k = (-2)%Z →
   outcome (make_prediction text model_choice (Some models))
     = inr (Some "Human", Some probs)) ∧
  (k = (-1)%Z →
   outcome (make_prediction text model_choice (Some models))
     = inr (Some "AI", Some probs)) ∧
  ((k < -2 ∨ 1 < k)%Z →
   make_prediction text model_choice (Some models) =
     (events (raw_prediction text model_choice models)
        ++ prediction_errors model_choice models IndexError,
      inr (None, None))).
Proof.
  intros Hraw. rewrite make_prediction_eq, Hraw.
  split; [by intros ->|]. split; [by intros ->|].
  intros Hk. repeat case_decide; try done; lia.
Qed.

Lemma class_index_bounds_witness :
  outcome (raw_prediction "Great product!" "svm"
             (registry_only_pipeline (stub_classifier (-1) (1 # 5) (4 # 5))))
    = inr (Some (-1)%Z, Some [(1 # 5)%Q; (4 # 5)%Q]) ∧
  outcome (make_prediction "Great product!" "svm"
             (Some (registry_only_pipeline
                      (stub_classifier (-1) (1 # 5) (4 # 5)))))
    = inr (Some "AI", Some [(1 # 5)%Q; (4 # 5)%Q]) ∧
  outcome (raw_prediction "Great product!" "svm"
             (registry_only_pipeline (stub_classifier 2 (1 # 5) (4 # 5))))
    = inr (Some 2%Z, Some [(1 # 5)%Q; (4 # 5)%Q]) ∧
  outcome (make_prediction "Great product!" "svm"
             (Some (registry_only_pipeline
                      (stub_classifier 2 (1 # 5) (4 # 5)))))
    = inr (None, None).
Proof.
  split; [reflexivity|]. split.
  - exact (proj1 (proj2 (class_index_bounds "Great product!" "svm"
             (registry_only_pipeline (stub_classifier (-1) (1 # 5) (4 # 5)))
             (-1)%Z _ eq_refl)) eq_refl).
  - split; [reflexivity|].
    rewrite (proj2 (proj2 (class_index_bounds "Great product!" "svm"
               (registry_only_pipeline (stub_classifier 2 (1 # 5) (4 # 5)))
               2%Z _ eq_refl))); [reflexivity|]. right. reflexivity.
Defined.

(** X10. A flag that says available while the object is not in the dict
    does not crash the app: the SVM request finds no pipeline, the
    [KeyError] is reported, no model is called and the result is empty;
    likewise when the vectorizer is flagged but absent. *)
Theorem missing_object_reported text models :
  (truthy (models !! "pipeline_available") = true →
   models !! "pipeline" = None →
   make_prediction text "svm" (Some models) =
     (prediction_errors "svm" models (KeyError "pipeline"),
      inr (None, None))) ∧
  (∀ model_choice flag,
     (model_choice, flag) ∈ [("decision_tree", "dt_available");
                             ("adaboost", "ada_available")] →
     truthy (models !! "vectorizer_available") = true →
     truthy (models !! flag) = true →
     models !! "vectorizer" = None →
     make_prediction text model_choice (Some models) =
       (prediction_errors model_choice models (KeyError "vectorizer"),
        inr (None, None))).
Proof.
  split.
  - intros Hp Hk. rewrite make_prediction_eq.
    unfold raw_prediction. simpl. rewrite Hp.
    unfold use_pipeline, getitem. rewrite Hk. reflexivity.
  - intros model_choice flag Hin Hv Hf Hk. rewrite make_prediction_eq.
    apply list_elem_of_In in Hin. simpl in Hin.
    destruct Hin as [[= <- <-]|[[= <- <-]|[]]];
      unfold raw_prediction; simpl; rewrite Hv, Hf; simpl;
      unfold use_individual, getitem; rewrite Hk; reflexivity.
Qed.

Lemma missing_object_reported_witness :
  truthy (registry_flags_only !! "pipeline_available") = true ∧
  registry_flags_only !! "pipeline" = None ∧
  outcome (make_prediction "Great product!" "svm" (Some registry_flags_only))
    = inr (None, None) ∧
  ("decision_tree", "dt_available")
    ∈ [("decision_tree", "dt_available"); ("adaboost", "ada_available")] ∧
  outcome (make_prediction "Great product!" "decision_tree"
             (Some registry_flags_only)) = inr (None, None).
Proof.
  split; [reflexivity|]. split; [reflexivity|]. split.
  - rewrite (proj1 (missing_object_reported "Great product!"
                      registry_flags_only) eq_refl eq_refl).
    reflexivity.
  - assert (Hin : ("decision_tree", "dt_available")
                  ∈ [("decision_tree", "dt_available");
                     ("adaboost", "ada_available")]) by (by left).
    split; [exact Hin|].
    rewrite (proj2 (missing_object_reported "Great product!"
                      registry_flags_only) _ _ Hin eq_refl eq_refl eq_refl).
    reflexivity.
Defined.

Lemma use_pipeline_first text models o :
  models !! "pipeline" = Some (VObj o) →
  ∃ rest, events (use_pipeline text models)
          = ev_call "pipeline" Predict (Texts [text]) :: rest.
Proof.
  intros Ho. unfold use_pipeline, getitem. rewrite Ho.
  rewrite mret_bind. unfold call_predict.
  rewrite events_bind, events_bind. simpl. eauto.
Qed.

Lemma use_individual_first key text models v :
  models !! "vectorizer" = Some (VObj v) →
  ∃ rest, events (use_individual key text models)
          = ev_call "vectorizer" Transform (Texts [text]) :: rest.
Proof.
  intros Hv. unfold use_individual, getitem. rewrite Hv.
  rewrite mret_bind. unfold call_transform.
  rewrite events_bind. simpl. eauto.
Qed.

Lemma make_prediction_events_app text model_choice models :
  ∃ rest, events (make_prediction text model_choice (Some models)) =
          events (raw_prediction text model_choice models) ++ rest.
Proof.
  rewrite make_prediction_eq.
  repeat case_match; simpl; eauto; exists []; by rewrite app_nil_r.
Qed.

(** X11. On a registry that [load_models] returned, every choice that
    [get_available_models] offers is dispatched to a stored object: the
    first thing [make_prediction] does is call the pipeline's [predict] or
    the vectorizer's [transform] on the text. *)
Theorem offered_choice_dispatched fs models text model :
  outcome (load_models fs) = inr (Some models) →
  model ∈ get_available_models (Some models) →
  ∃ ev rest,
    events (make_prediction text model.1 (Some models)) = ev :: rest ∧
    (ev = ev_call "pipeline" Predict (Texts [text]) ∨
     ev = ev_call "vectorizer" Transform (Texts [text])).
Proof.
  intros [Hload _]%load_models_inr Hin.
  apply load_artifacts_recorded in Hload as Hrec.
  assert (∀ p, resolve model.1 models = Some p →
            ∃ ev rest, events (run_path p text models) = ev :: rest ∧
              (ev = ev_call "pipeline" Predict (Texts [text]) ∨
               ev = ev_call "vectorizer" Transform (Texts [text]))) as Hrun.
  { unfold artifacts in Hrec.
    apply Forall_cons in Hrec as [[Hpf Hpo] Hrec].
    apply Forall_cons in Hrec as [[Hvf Hvo] _].
    intros p Hp. unfold resolve in Hp. rewrite Hpf, Hvf in Hp. simpl in Hp.
    destruct (fs "models/ai_detection_pipeline.pkl") as [e1|o1];
      destruct (fs "models/tfidf_vectorizer.pkl") as [e2|o2];
      simpl in Hp, Hpo, Hvo; rewrite ?andb_false_r in Hp;
      repeat case_match; simplify_eq; simpl;
      try (destruct (use_pipeline_first text models o1 Hpo) as [rest ->];
           by eauto);
      try (match goal with
           | |- context [use_individual ?k _ _] =>
               destruct (use_individual_first k text models o2 Hvo)
                 as [rest ->]
           end; by eauto). }
  assert (is_Some (resolve model.1 models)) as [p Hp].
  { revert Hin. unfold get_available_models, resolve.
    destruct (truthy (models !! "pipeline_available"));
      destruct (truthy (models !! "vectorizer_available"));
      destruct (truthy (models !! "svm_available"));
      destruct (truthy (models !! "dt_available"));
      destruct (truthy (models !! "ada_available")); simpl;
      intros Hin%list_elem_of_In; simpl in Hin;
      intuition (subst; simpl; eauto). }
  destruct (Hrun p Hp) as (ev & rest & Hev & Hor).
  destruct (make_prediction_events_app text model.1 models) as [tail Htail].
  rewrite Htail, raw_prediction_resolve, Hp, Hev. simpl. eauto.
Qed.

Lemma offered_choice_dispatched_witness :
  outcome (load_models fs_vectorizer_dt) = inr (Some registry_vectorizer_dt) ∧
  ("decision_tree", "🎯 Decision Tree")
    ∈ get_available_models (Some registry_vectorizer_dt) ∧
  ∃ ev rest,
    events (make_prediction "Great product!" "decision_tree"
              (Some registry_vectorizer_dt)) = ev :: rest ∧
    (ev = ev_call "pipeline" Predict (Texts ["Great product!"]) ∨
     ev = ev_call "vectorizer" Transform (Texts ["Great product!"])).
Proof.
  assert (H : outcome (load_models fs_vectorizer_dt)
              = inr (Some registry_vectorizer_dt)) by reflexivity.
  assert (Hin : ("decision_tree", "🎯 Decision Tree")
                ∈ get_available_models (Some registry_vectorizer_dt))
    by (by left).
  split; [exact H|]. split; [exact Hin|].
  exact (offered_choice_dispatched fs_vectorizer_dt _ "Great product!"
           ("decision_tree", "🎯 Decision Tree") H Hin).
Defined.

(** ** The pages around the core *)

(** X12. The Home page and the model select boxes agree: the SVM, Decision
    Tree and AdaBoost boxes say available exactly when the choice is offered
    by [get_available_models], and the vectorizer box follows its flag. *)
Theorem model_status_matches_choices (m : gmap string value) :
  dom m ≠ ∅ →
  ∃ svm dt ada vectorizer,
    model_status (Some m) =
      [(success, "✅ Models loaded successfully!"); svm; dt; ada; vectorizer] ∧
    (svm.1 = info ↔ "svm" ∈ (get_available_models (Some m)).*1) ∧
    (dt.1 = info ↔ "decision_tree" ∈ (get_available_models (Some m)).*1) ∧
    (ada.1 = info ↔ "adaboost" ∈ (get_available_models (Some m)).*1) ∧
    (vectorizer.1 = info ↔ truthy (m !! "vectorizer_available") = true).
Proof.
  intros Hdom. unfold model_status, dict_truthy, get_available_models.
  rewrite bool_decide_eq_false_2 by done. simpl negb. cbv iota.
  flag_cases m; simpl; do 4 eexists; (split; [reflexivity|]);
    repeat split; simpl; intros; try reflexivity; try discriminate;
    rewrite ?list_elem_of_In in *; simpl in *;
    intuition (try discriminate; auto).
Qed.

Lemma model_status_matches_choices_witness :
  dom registry_vectorizer_dt ≠ ∅ ∧
  ∃ svm dt ada vectorizer,
    model_status (Some registry_vectorizer_dt) =
      [(success, "✅ Models loaded successfully!"); svm; dt; ada; vectorizer] ∧
    (svm.1 = info ↔
     "svm" ∈ (get_available_models (Some registry_vectorizer_dt)).*1) ∧
    (dt.1 = info ↔
     "decision_tree" ∈ (get_available_models (Some registry_vectorizer_dt)).*1) ∧
    (ada.1 = info ↔
     "adaboost" ∈ (get_available_models (Some registry_vectorizer_dt)).*1) ∧
    (vectorizer.1 = info ↔
     truthy (registry_vectorizer_dt !! "vectorizer_available") = true).
Proof.
  assert (H : dom registry_vectorizer_dt ≠ ∅).
  { intros Hd.
    assert ("dt_available" ∈ dom registry_vectorizer_dt) as Hin.
    { apply elem_of_dom. by eexists. }
    rewrite Hd in Hin. by apply not_elem_of_empty in Hin. }
  exact (conj H (model_status_matches_choices registry_vectorizer_dt H)).
Defined.

Lemma load_one_file fs key flag path m m' :
  outcome (load_one fs key flag path m) = inr m' →
  (∃ o, fs path = inr o) ∨ fs path = inl FileNotFoundError.
Proof. intros [(o & ? & _)|[? _]]%load_one_inr; eauto. Qed.

Lemma load_artifacts_files fs models :
  outcome (load_artifacts fs) = inr models →
  Forall (λ path, (∃ o, fs path = inr o) ∨ fs path = inl FileNotFoundError)
         artifact_paths.
Proof.
  unfold load_artifacts.
  intros (m1 & H1 & (m2 & H2 & (m3 & H3 & (m4 & H4 & H5)%bind_inr)%bind_inr)
            %bind_inr)%bind_inr.
  apply load_one_file in H1, H2, H3, H4, H5.
  unfold artifact_paths, artifacts. simpl.
  repeat (apply Forall_cons; split; [assumption|]). constructor.
Qed.

(** X13. On the Model Info page of a loaded registry, the five rows are
    the five model files in loading order; a row says "Loaded" exactly when
    its file was loaded and "Not Found" exactly when the file was missing. *)
Theorem file_status_matches_files fs models :
  outcome (load_models fs) = inr (Some models) →
  Forall2 (λ row artifact,
             artifact.2 = "models/" +:+ File row ∧
             (Status row = "✅ Loaded" ↔ ∃ o, fs artifact.2 = inr o) ∧
             (Status row = "❌ Not Found" ↔
              fs artifact.2 = inl FileNotFoundError))
          (file_status models) artifacts.
Proof.
  intros [Hload _]%load_models_inr.
  pose proof (load_artifacts_files _ _ Hload) as Hfiles.
  apply load_artifacts_recorded, recorded_flags in Hload
    as (Hp & Hv & Hs & Hd & Ha).
  unfold file_status, files_to_check, artifacts. simpl.
  rewrite Hp, Hv, Hs, Hd, Ha.
  unfold artifact_paths, artifacts in Hfiles. simpl in Hfiles.
  repeat (apply Forall_cons in Hfiles as [[[? ?]|?] Hfiles]);
    repeat match goal with E : fs _ = _ |- _ => progress rewrite E end; simpl;
    repeat constructor; simpl;
    repeat match goal with E : fs _ = _ |- _ => progress rewrite E end;
    first [ reflexivity
          | discriminate
          | intros _; by eauto
          | intros [? [=]] ].
Qed.

Lemma file_status_matches_files_witness :
  outcome (load_models fs_vectorizer_dt) = inr (Some registry_vectorizer_dt) ∧
  Forall2 (λ row artifact,
             artifact.2 = "models/" +:+ File row ∧
             (Status row = "✅ Loaded" ↔ ∃ o, fs_vectorizer_dt artifact.2 = inr o) ∧
             (Status row = "❌ Not Found" ↔
              fs_vectorizer_dt artifact.2 = inl FileNotFoundError))
          (file_status registry_vectorizer_dt) artifacts.
Proof.
  assert (H : outcome (load_models fs_vectorizer_dt)
              = inr (Some registry_vectorizer_dt)) by reflexivity.
  exact (conj H (file_status_matches_files fs_vectorizer_dt _ H)).
Defined.





(** X16. The name shown for an option of the model select box is found
    for every choice that is offered, and it is the name listed with that
    choice: the lookup never runs out of entries. *)
Theorem format_func_finds models model :
  model ∈ get_available_models models →
  format_func (get_available_models models) model.1 = Some model.2.
Proof.
  destruct models as [m|]; [|by intros H%elem_of_nil].
  unfold get_available_models, format_func.
  flag_cases m; simpl; intros Hin%list_elem_of_In; simpl in Hin;
    repeat (destruct Hin as [<-|Hin]; [reflexivity|]); done.
Qed.

Lemma format_func_finds_witness :
  ("adaboost", "🎯 AdaBoost") ∈ get_available_models (Some registry_all) ∧
  format_func (get_available_models (Some registry_all)) "adaboost"
    = Some "🎯 AdaBoost".
Proof.
  assert (H : ("adaboost", "🎯 AdaBoost")
              ∈ get_available_models (Some registry_all)).
  { apply list_elem_of_In. vm_compute. tauto. }
  exact (conj H (format_func_finds (Some registry_all) _ H)).
Defined.

(** X17. The name of the SVM choice tells which artifacts will answer: it
    is "SVM (Pipeline)" exactly when an SVM request is served by the
    pipeline, and "SVM (Individual)" exactly when it is served by the
    vectorizer and the SVM classifier. *)
Theorem svm_name_tells_path (m : gmap string value) :
  (("svm", "📈 SVM (Pipeline)") ∈ get_available_models (Some m) ↔
   resolve "svm" m = Some via_pipeline) ∧
  (("svm", "📈 SVM (Individual)") ∈ get_available_models (Some m) ↔
   resolve "svm" m = Some (via_individual "svm")).
Proof.
  unfold get_available_models, resolve.
  flag_cases m; simpl; rewrite !list_elem_of_In; simpl;
    split; split; intros H; try done; try discriminate;
    intuition (try discriminate; auto).
Qed.

(** ** Confidence and preview *)

Lemma fold_max_spec xs x :
  let r := fold_left (λ acc y : Q, if Qle_bool y acc then acc else y) xs x in
  r ∈ x :: xs ∧ (x <= r)%Q ∧ ∀ y, y ∈ xs → (y <= r)%Q.
Proof.
  revert x. induction xs as [|y xs IH]; intros x; simpl.
  - split; [by left|]. split; [apply Qle_refl|]. by intros y Hy%elem_of_nil.
  - destruct (IH (if Qle_bool y x then x else y)) as (Hin & Hle & Hall).
    assert ((x <= (if Qle_bool y x then x else y))%Q ∧
            (y <= (if Qle_bool y x then x else y))%Q) as [Hx Hy].
    { destruct (Qle_bool y x) eqn:E.
      - apply Qle_bool_iff in E. split; [apply Qle_refl|done].
      - split; [|apply Qle_refl]. apply Qlt_le_weak, Qnot_le_lt.
        intros Hle'. apply Qle_bool_iff in Hle'. congruence. }
    split; [|split].
    + apply elem_of_cons in Hin as [->|Hin]; [|by do 2 right].
      destruct (Qle_bool y x); [by left|by right; left].
    + by eapply Qle_trans.
    + intros z [->|Hz]%elem_of_cons; [by eapply Qle_trans|by apply Hall].
Qed.

(** X18. The confidence [max(probabilities)] is one of the probabilities
    and no probability is larger, whatever the length of the vector; on an
    empty vector it raises [ValueError]. *)
Theorem py_max_spec probabilities :
  py_max [] = raise ValueError ∧
  ∀ confidence,
    outcome (py_max probabilities) = inr confidence →
    confidence ∈ probabilities ∧
    ∀ p, p ∈ probabilities → (p <= confidence)%Q.
Proof.
  split; [done|]. intros confidence.
  destruct probabilities as [|x xs]; simpl; [done|]. intros [= <-].
  destruct (fold_max_spec xs x) as (Hin & Hle & Hall).
  split; [done|]. by intros p [->|Hp]%elem_of_cons; [|apply Hall].
Qed.

Lemma py_max_spec_witness :
  outcome (py_max [(1 # 10)%Q; (7 # 10)%Q; (2 # 10)%Q]) = inr (7 # 10)%Q ∧
  (7 # 10)%Q ∈ [(1 # 10)%Q; (7 # 10)%Q; (2 # 10)%Q] ∧
  ((2 # 10) <= (7 # 10))%Q.
Proof.
  split; [reflexivity|].
  destruct (proj2 (py_max_spec [(1 # 10)%Q; (7 # 10)%Q; (2 # 10)%Q])
              (7 # 10)%Q eq_refl) as [Hin Hall].
  split; [exact Hin|]. apply Hall. do 2 right. left.
Defined.

Lemma length_append_eq a b :
  String.length (a +:+ b) = (String.length a + String.length b)%nat.
Proof. induction a as [|c a IH]; simpl; [done|]. by rewrite IH. Qed.

Lemma length_substring0 n s :
  (n ≤ String.length s)%nat → String.length (substring 0 n s) = n.
Proof.
  revert s. induction n as [|n IH]; intros s; [by destruct s|].
  destruct s as [|c s]; simpl; [lia|]. intros H. rewrite IH; lia.
Qed.

Lemma prefix_substring0 n s : String.prefix (substring 0 n s) s = true.
Proof.
  revert s. induction n as [|n IH]; intros s; [by destruct s|].
  destruct s as [|c s]; simpl; [done|].
  destruct (ascii_dec c c); [apply IH|done].
Qed.

(** X19. The preview of a text in the results table is the text itself up
    to 100 characters; a longer text is cut to its first 100 characters
    followed by three dots, 103 characters in all. *)
Theorem preview_bounds text :
  (String.length (preview text) ≤ 103)%nat ∧
  ((String.length text ≤ 100)%nat → preview text = text) ∧
  ((100 < String.length text)%nat →
   preview text = substring 0 100 text +:+ "..." ∧
   String.length (preview text) = 103%nat ∧
   String.prefix (substring 0 100 text) text = true).
Proof.
  unfold preview.
  destruct (Nat.ltb_spec 100 (String.length text)) as [Hlt|Hle].
  - assert (String.length (substring 0 100 text +:+ "...") = 103%nat) as Hlen.
    { rewrite length_append_eq, length_substring0 by lia. reflexivity. }
    split; [lia|]. split; [lia|]. intros _.
    split; [done|]. split; [done|]. apply prefix_substring0.
  - split; [lia|]. split; [done|]. lia.
Qed.

Lemma preview_bounds_witness :
  (100 < String.length sample_long_text)%nat ∧
  String.length (preview sample_long_text) = 103%nat ∧
  String.prefix (substring 0 100 sample_long_text) sample_long_text = true.
Proof.
  assert (H : (100 < String.length sample_long_text)%nat).
  { vm_compute. lia. }
  destruct (proj2 (proj2 (preview_bounds sample_long_text)) H)
    as (_ & Hlen & Hpre).
  split; [exact H|]. split; [exact Hlen|exact Hpre].
Defined.
